(** * crypto-bot: the token qualification pipeline of [app.py]

    A shallow embedding of the functions of [app.py] that decide which
    token observations reach the [tokens] table: [passes_filters],
    [is_blacklisted], [check_rugcheck_status], [is_bundled_supply],
    [add_to_blacklist], [execute_trade] and [save_token_data].

    Python values decoded from JSON are the type [json]; a Python [float]
    is a binary64 number of the Standard Library's [spec_float]; a Python
    exception is the [Raise] branch of [result].  The mutable process state
    ([config], the file [config.json], the [tokens] table, the dashboard
    and the network) is threaded explicitly through the monad [M]. *)

From Stdlib Require Import ZArith List String Ascii Bool Lia.
From Stdlib Require Import Floats.SpecFloat.
Import ListNotations.

Set Warnings "-register-all".

Local Open Scope string_scope.
Local Open Scope Z_scope.
Local Open Scope list_scope.

(** ** Python values *)

(** What [json.load] and [response.json()] return.  A [JDict] lists the
    items of a Python [dict]; lookup takes the first item with the key
    (a [dict] has each key once).  A [JFloat] holds a binary64 number, one
    that [valid_binary 53 1024] accepts. *)
Inductive json : Type :=
| JNull
| JBool (b : bool)
| JInt (z : Z)
| JFloat (f : spec_float)
| JStr (s : string)
| JList (l : list json)
| JDict (d : list (string * json)).

(** The exceptions the modelled code can raise. *)
Inductive exn : Type :=
| AttributeError    (* [.get] on a value that is not a dict *)
| TypeError         (* [float()] of None, a list or a dict; iterating a number *)
| ValueError        (* [float()] of a string that is not a number *)
| OverflowError     (* [float()] of an int beyond the float range; an int beyond SQLite's INTEGER *)
| JSONDecodeError   (* [response.json()] on a body that is not JSON *)
| SqliteBindError.  (* sqlite3 refusing to bind a list or a dict *)

Inductive result (A : Type) : Type :=
| Ok (a : A)
| Raise (e : exn).
Arguments Ok {A} a.
Arguments Raise {A} e.

Definition rbind {A B} (r : result A) (k : A -> result B) : result B :=
  match r with
  | Ok a => k a
  | Raise e => Raise e
  end.

Notation "'let?' x ':=' r 'in' k" := (rbind r (fun x => k))
  (at level 10, x name, r at level 100, k at level 200).

Fixpoint assoc (k : string) (d : list (string * json)) : option json :=
  match d with
  | [] => None
  | (k', v) :: d' => if String.eqb k k' then Some v else assoc k d'
  end.

(** [v.get(k, default)]: only a dict has [.get]. *)
Definition py_get (v : json) (k : string) (default : json) : result json :=
  match v with
  | JDict d => Ok (match assoc k d with Some x => x | None => default end)
  | _ => Raise AttributeError
  end.

(** ** Floats and numbers *)

Definition float := spec_float.

Definition float_zero : float := S754_zero false.
Definition float_one : float := S754_finite false 4503599627370496 (-52).
Definition float_half : float := S754_finite false 4503599627370496 (-53).

(** [a * b] on two floats: binary64, round to nearest even. *)
Definition float_mul (a b : float) : float := SFmul 53 1024 a b.

(** [float(n)] for an int: the nearest float, ties to even; ints that round
    beyond the largest float raise OverflowError. *)
Definition float_of_int (n : Z) : result float :=
  match binary_normalize 53 1024 n 0 false with
  | S754_infinity _ => Raise OverflowError
  | f => Ok f
  end.

(** A Python number: an [int] or a [float]. *)
Inductive pynum : Type :=
| PInt (z : Z)
| PFloat (f : float).

(** A float against an int: Python compares the exact values. *)
Definition compare_float_int (f : float) (n : Z) : option comparison :=
  match f with
  | S754_nan => None
  | S754_infinity s => Some (if s then Lt else Gt)
  | S754_zero _ => Some (0 ?= n)
  | S754_finite s m e =>
      let sm := if s then Z.neg m else Z.pos m in
      Some (if 0 <=? e then (sm * 2 ^ e ?= n) else (sm ?= n * 2 ^ (- e)))
  end.

Definition py_compare (a b : pynum) : option comparison :=
  match a, b with
  | PInt x, PInt y => Some (x ?= y)
  | PFloat f, PFloat g => SFcompare f g
  | PFloat f, PInt y => compare_float_int f y
  | PInt x, PFloat g => option_map CompOpp (compare_float_int g x)
  end.

(** [a >= b], [a > b], [a < b], [a == b]; every comparison with a NaN is
    False. *)
Definition py_ge (a b : pynum) : bool :=
  match py_compare a b with Some (Gt | Eq) => true | _ => false end.
Definition py_gt (a b : pynum) : bool :=
  match py_compare a b with Some Gt => true | _ => false end.
Definition py_num_eq (a b : pynum) : bool :=
  match py_compare a b with Some Eq => true | _ => false end.

(** ** Truth value, iteration, membership *)

(** [if v:]. *)
Definition py_truthy (v : json) : bool :=
  match v with
  | JNull => false
  | JBool b => b
  | JInt z => negb (z =? 0)
  | JFloat f => match f with S754_zero _ => false | _ => true end
  | JStr s => negb (String.eqb s "")
  | JList l => match l with [] => false | _ => true end
  | JDict d => match d with [] => false | _ => true end
  end.

(** [for x in v]: the items of a list, the keys of a dict, the characters
    of a str (each one a str, whatever its encoding); a number, a bool and
    None are not iterable. *)
Definition py_iter (v : json) : result (list json) :=
  match v with
  | JList l => Ok l
  | JDict d => Ok (map (fun kv => JStr (fst kv)) d)
  | JStr s => Ok (map (fun a => JStr (String a EmptyString)) (list_ascii_of_string s))
  | JNull | JBool _ | JInt _ | JFloat _ => Raise TypeError
  end.

(** [v == "..."] against a str literal: only an equal str is equal. *)
Definition py_eq_str (v : json) (s : string) : bool :=
  match v with
  | JStr t => String.eqb t s
  | _ => false
  end.

Definition as_num (v : json) : option pynum :=
  match v with
  | JBool b => Some (PInt (if b then 1 else 0))
  | JInt z => Some (PInt z)
  | JFloat f => Some (PFloat f)
  | _ => None
  end.

Definition num_same (a b : pynum) : bool :=
  match a, b with
  | PFloat S754_nan, PFloat S754_nan => true
  | _, _ => py_num_eq a b
  end.

(** The test behind [x in lst]: [e is x or e == x], also used item by item
    when two lists or two dicts are compared.  Numbers are equal across
    int, float and bool by value.  The one value not [==] to itself, NaN,
    is a single shared object when decoded by the [json] module, so it is
    the same as itself here. *)
Fixpoint py_same (a b : json) {struct a} : bool :=
  match a with
  | JNull => match b with JNull => true | _ => false end
  | JStr s => match b with JStr t => String.eqb s t | _ => false end
  | JBool _ | JInt _ | JFloat _ =>
      match as_num a, as_num b with
      | Some x, Some y => num_same x y
      | _, _ => false
      end
  | JList l1 =>
      match b with
      | JList l2 =>
          (fix all2 (l1 l2 : list json) {struct l1} : bool :=
             match l1, l2 with
             | [], [] => true
             | x :: xs, y :: ys => py_same x y && all2 xs ys
             | _, _ => false
             end) l1 l2
      | _ => false
      end
  | JDict d1 =>
      match b with
      | JDict d2 =>
          Nat.eqb (List.length d1) (List.length d2) &&
          (fix all (l : list (string * json)) : bool :=
             match l with
             | [] => true
             | (k, v) :: r =>
                 existsb (fun kw => String.eqb k (fst kw) && py_same v (snd kw)) d2
                 && all r
             end) d1
      | _ => false
      end
  end.

(** [x in lst]. *)
Definition py_in (x : json) (lst : list json) : bool :=
  existsb (py_same x) lst.

(** ** The process state *)

(** [config["filters"]]: the two thresholds, JSON numbers. *)
Record filters_t : Type := {
  min_liquidity : pynum;
  min_market_cap : pynum
}.

(** The dict loaded from [config.json].  The two blacklists are Python
    lists: order and repetitions are kept. *)
Record config_t : Type := {
  telegram_bot_token : json;
  telegram_chat_id : json;
  bonkbot_api_key : json;
  filters : filters_t;
  blacklisted_coins : list json;
  blacklisted_devs : list json;
  rugcheck_api_url : string
}.

Definition set_blacklisted_coins (l : list json) (c : config_t) : config_t :=
  {| telegram_bot_token := telegram_bot_token c;
     telegram_chat_id := telegram_chat_id c;
     bonkbot_api_key := bonkbot_api_key c;
     filters := filters c;
     blacklisted_coins := l;
     blacklisted_devs := blacklisted_devs c;
     rugcheck_api_url := rugcheck_api_url c |}.

Definition set_blacklisted_devs (l : list json) (c : config_t) : config_t :=
  {| telegram_bot_token := telegram_bot_token c;
     telegram_chat_id := telegram_chat_id c;
     bonkbot_api_key := bonkbot_api_key c;
     filters := filters c;
     blacklisted_coins := blacklisted_coins c;
     blacklisted_devs := l;
     rugcheck_api_url := rugcheck_api_url c |}.

(** The parameters bound by the INSERT of [save_token_data], in the order
    of its columns; [id] and [timestamp] are assigned by SQLite. *)
Record row : Type := {
  row_symbol : json;
  row_name : json;
  row_price : float;
  row_liquidity : float;
  row_market_cap : float;
  row_is_cex_listed : Z;
  row_is_rugged : Z;
  row_is_pumped : Z;
  row_is_fake_volume : Z;
  row_dev_address : json;
  row_is_bundled_supply : bool;
  row_rugcheck_status : json
}.

(** An HTTP request sent through [requests], and the response read back:
    [body] is what [response.json()] returns, [None] where it raises. *)
Inductive request : Type :=
| GET (url : string)
| POST (url : string) (bearer : json) (payload : json).

Record response : Type := {
  status_code : Z;
  body : option json
}.

(** What the dashboard was told through [st.error] and [st.success]. *)
Inductive st_event : Type :=
| StRugcheckFailed (token_address : string)
| StTradeExecuted (action token_address : string)
| StTradeFailed (action token_address : string)
| StFetchFailed (token_address : string).

Record state : Type := {
  config : config_t;          (* the global dict [config] *)
  config_json : config_t;     (* what the file [config.json] holds *)
  tokens : list row;          (* the table [tokens] of [dex_tokens.db] *)
  st : list st_event;         (* dashboard messages, oldest first *)
  sent : list request         (* requests made so far, oldest first *)
}.

(** A computation on the process state that returns or raises; what it did
    to the state before raising stays done. *)
Definition M (A : Type) : Type := state -> state * result A.

Definition ret {A} (a : A) : M A := fun s => (s, Ok a).

Definition bind {A B} (m : M A) (k : A -> M B) : M B :=
  fun s => match m s with
           | (s', Ok a) => k a s'
           | (s', Raise e) => (s', Raise e)
           end.

Definition lift {A} (r : result A) : M A := fun s => (s, r).

Notation "x <- m ;; k" := (bind m (fun x => k))
  (at level 61, m at next level, right associativity).
Notation "m ;; k" := (bind m (fun _ => k))
  (at level 61, right associativity).

Definition get_config : M config_t := fun s => (s, Ok (config s)).

Definition put_config (c : config_t) : M unit :=
  fun s => ({| config := c; config_json := config_json s; tokens := tokens s;
               st := st s; sent := sent s |}, Ok tt).

(** [json.dump(config, f)] on [config.json], opened for writing. *)
Definition dump_config : M unit :=
  fun s => ({| config := config s; config_json := config s; tokens := tokens s;
               st := st s; sent := sent s |}, Ok tt).

Definition st_report (e : st_event) : M unit :=
  fun s => ({| config := config s; config_json := config_json s; tokens := tokens s;
               st := st s ++ [e]; sent := sent s |}, Ok tt).

(** [2 ** 63], the bound of SQLite's INTEGER. *)
Definition sqlite_int_bound : Z := 9223372036854775808.

(** Binding one parameter: sqlite3 takes None, int, float and str; an int
    must fit 64 bits. *)
Definition sql_bind (v : json) : result unit :=
  match v with
  | JList _ | JDict _ => Raise SqliteBindError
  | JInt z =>
      if (- sqlite_int_bound <=? z) && (z <? sqlite_int_bound) then Ok tt
      else Raise OverflowError
  | JNull | JBool _ | JFloat _ | JStr _ => Ok tt
  end.

(** Binding the parameters of the INSERT, in order; the floats, the flags
    and the audit status, a str by then, always bind. *)
Definition bind_parameters (r : row) : result unit :=
  let? _ := sql_bind (row_symbol r) in
  let? _ := sql_bind (row_name r) in
  sql_bind (row_dev_address r).

(** [cursor.execute('INSERT INTO tokens ...', r)].  The row is in [tokens]
    from the INSERT on.  [save_token_data] commits at its end, after
    [execute_trade]; in this model [execute_trade] always returns, so the
    commit is reached for every row inserted here. *)
Definition insert_token (r : row) : M unit :=
  fun s =>
    match bind_parameters r with
    | Ok _ => ({| config := config s; config_json := config_json s;
                  tokens := tokens s ++ [r]; st := st s; sent := sent s |}, Ok tt)
    | Raise e => (s, Raise e)
    end.

(** ** A reference [float()] on strings

    Python's [float(s)] on ASCII text: surrounding whitespace is dropped;
    an optional sign is followed by [inf], [infinity] or [nan] in any case,
    or by a decimal numeral with an optional fraction and exponent; the
    value is rounded to the nearest float, ties to even.  Digit separators
    ([1_000]) and the non-ASCII digits and spaces that Python also takes
    are refused here.  It runs the examples; the theorems do not depend on
    it. *)

Definition digit_of (a : ascii) : option Z :=
  let n := Z.of_nat (nat_of_ascii a) in
  if (48 <=? n) && (n <=? 57) then Some (n - 48) else None.

Definition is_space (a : ascii) : bool :=
  let n := Z.of_nat (nat_of_ascii a) in
  ((9 <=? n) && (n <=? 13)) || (n =? 32).

Definition lower (a : ascii) : ascii :=
  let n := nat_of_ascii a in
  if (65 <=? n)%nat && (n <=? 90)%nat then ascii_of_nat (n + 32) else a.

Fixpoint lstrip (l : list ascii) : list ascii :=
  match l with
  | a :: r => if is_space a then lstrip r else l
  | [] => []
  end.

Definition strip (l : list ascii) : list ascii :=
  rev (lstrip (rev (lstrip l))).

(** Reads a run of digits: the number read onto [acc], how many digits,
    and the rest. *)
Fixpoint read_digits (l : list ascii) (acc : Z) (n : Z) : Z * Z * list ascii :=
  match l with
  | a :: r =>
      match digit_of a with
      | Some d => read_digits r (10 * acc + d) (n + 1)
      | None => (acc, n, l)
      end
  | [] => (acc, n, l)
  end.

(** [m * 10 ^ e10] for [m > 0], correctly rounded. *)
Definition float_of_decimal (neg : bool) (m e10 : Z) : float :=
  if m =? 0 then S754_zero neg
  else if 0 <=? e10 then
    binary_normalize 53 1024 ((if neg then - m else m) * 10 ^ e10) 0 false
  else
    let d := 10 ^ (- e10) in
    let k := Z.max 0 (65 + Z.log2 d - Z.log2 m) in
    let (q, r) := Z.div_eucl (m * 2 ^ k) d in
    binary_round_aux 53 1024 neg q (- k) (new_location d r).

Definition read_sign (l : list ascii) : bool * list ascii :=
  match l with
  | "-"%char :: r => (true, r)
  | "+"%char :: r => (false, r)
  | _ => (false, l)
  end.

(** The exponent part: [e] or [E], an optional sign, digits. *)
Definition read_exponent (l : list ascii) : option Z :=
  match l with
  | [] => Some 0
  | a :: r =>
      if Ascii.eqb (lower a) "e" then
        let (neg, r1) := read_sign r in
        match read_digits r1 0 0 with
        | (e, n, []) => if 0 <? n then Some (if neg then - e else e) else None
        | _ => None
        end
      else None
  end.

Definition read_numeral (neg : bool) (l : list ascii) : option float :=
  let '(ip, n1, r1) := read_digits l 0 0 in
  let '(m, n2, r2) :=
    match r1 with
    | "."%char :: r => read_digits r ip 0
    | _ => (ip, 0, r1)
    end in
  if 0 <? n1 + n2 then
    match read_exponent r2 with
    | Some e => Some (float_of_decimal neg m (e - n2))
    | None => None
    end
  else None.

Definition ascii_float_of_str (s : string) : option float :=
  let (neg, l) := read_sign (strip (list_ascii_of_string s)) in
  let word := string_of_list_ascii (map lower l) in
  if String.eqb word "inf" || String.eqb word "infinity" then Some (S754_infinity neg)
  else if String.eqb word "nan" then Some S754_nan
  else read_numeral neg l.

(** ** Sample data: the scenarios of the specification *)

Definition sample_config : config_t :=
  {| telegram_bot_token := JStr "123456:bot";
     telegram_chat_id := JStr "42";
     bonkbot_api_key := JStr "secret";
     filters := {| min_liquidity := PInt 10000; min_market_cap := PInt 1000000 |};
     blacklisted_coins := [];
     blacklisted_devs := [];
     rugcheck_api_url := "https://api.rugcheck.xyz/v1/check" |}.

Definition sample_state : state :=
  {| config := sample_config; config_json := sample_config;
     tokens := []; st := []; sent := [] |}.

(** A pair with liquidity 50,000 and valuation 2,000,000, and the given
    holders of a supply of 1000. *)
Definition sample_pair (holders : list json) : json :=
  JDict [("baseToken", JDict [("address", JStr "So1ana"); ("name", JStr "Sample");
                              ("symbol", JStr "SMP")]);
         ("priceUsd", JStr "0.0123");
         ("liquidity", JDict [("usd", JInt 50000)]);
         ("fdv", JInt 2000000);
         ("dexId", JStr "raydium");
         ("holders", JList holders);
         ("totalSupply", JInt 1000)].

Definition sample_token_data (holders : list json) : json :=
  JDict [("pair", sample_pair holders)].

(** One holder with 10% of the supply, then one with 60%. *)
Definition majority_holders : list json :=
  [JDict [("address", JStr "h1"); ("balance", JInt 100)];
   JDict [("address", JStr "h2"); ("balance", JInt 600)]].

(** A network whose audit endpoint answers every GET with the given status
    code and body, and whose trade endpoint accepts every POST. *)
Definition sample_network (code : Z) (b : option json) : list request -> request -> response :=
  fun _ r =>
    match r with
    | GET _ => {| status_code := code; body := b |}
    | POST _ _ _ => {| status_code := 200; body := Some (JDict []) |}
    end.

Definition good_audit : list request -> request -> response :=
  sample_network 200 (Some (JDict [("status", JStr "Good")])).

(** [float(n)] where it is in range. *)
Definition float_of_Z (n : Z) : float := binary_normalize 53 1024 n 0 false.

(** A network for whole runs: the market data endpoint answers with the
    given response, the audit endpoint with the other, and the trade
    endpoint with the given status code. *)
Definition market_network (market audit : response) (trade_code : Z)
    : list request -> request -> response :=
  fun _ r =>
    match r with
    | GET url =>
        if String.prefix "https://api.dexscreener.com/" url then market else audit
    | POST _ _ _ => {| status_code := trade_code; body := Some (JDict []) |}
    end.

Definition ok_response (v : json) : response :=
  {| status_code := 200; body := Some v |}.

Definition good_response : response :=
  ok_response (JDict [("status", JStr "Good")]).


(** A response whose valuation is null. *)
Definition null_fdv_token_data : json :=
  JDict [("pair", JDict [("priceUsd", JStr "0.0123");
                         ("liquidity", JDict [("usd", JInt 50000)]);
                         ("fdv", JNull)])].

(** A response whose symbol is a list, which SQLite does not take. *)
Definition list_symbol_token_data : json :=
  JDict [("pair", JDict [("baseToken", JDict [("address", JStr "So1ana");
                                              ("symbol", JList [JStr "SMP"])]);
                         ("liquidity", JDict [("usd", JInt 50000)]);
                         ("fdv", JInt 2000000)])].

(** A pair whose liquidity is NaN. *)
Definition nan_liquidity_pair : json :=
  JDict [("liquidity", JDict [("usd", JFloat S754_nan)]); ("fdv", JInt 2000000)].

(** Holders of a supply of 1000: 10%, then a balance that is null, then
    60%. *)
Definition null_balance_holders : list json :=
  [JDict [("address", JStr "h1"); ("balance", JInt 100)];
   JDict [("address", JStr "h2"); ("balance", JNull)];
   JDict [("address", JStr "h3"); ("balance", JInt 600)]].




(** The market data endpoint serving the sample pair, the audit endpoint
    answering "Good", the trade endpoint answering with the given code. *)
Definition sample_market (trade_code : Z) : list request -> request -> response :=
  market_network (ok_response (sample_token_data [])) good_response trade_code.

(** The market data endpoint answering 200 with a body that is not JSON. *)
Definition garbled_market : list request -> request -> response :=
  market_network {| status_code := 200; body := None |} good_response 200.

Section Bot.

(** [float(s)] for a [str] [s]: the parsed number, or [None] where Python
    raises ValueError.  The parser belongs to the interpreter, not to the
    program; every statement below holds whatever it is. *)
Variable float_of_str : string -> option float.

(** [float(v)]. *)
Definition py_float (v : json) : result float :=
  match v with
  | JFloat f => Ok f
  | JInt z => float_of_int z
  | JBool b => Ok (if b then float_one else float_zero)
  | JStr s => match float_of_str s with Some f => Ok f | None => Raise ValueError end
  | JNull | JList _ | JDict _ => Raise TypeError
  end.

(** The network: the response to a request, given the requests made before
    it. *)
Variable network : list request -> request -> response.

(** [BONKBOT_API_KEY], read from [config] when the module is loaded. *)
Variable BONKBOT_API_KEY : json.

(** [requests.get] and [requests.post] for a request that is answered: the
    request is sent and the response is the network's.  A request that
    raises instead of being answered (no connection, a URL or a header that
    [requests] refuses) has no counterpart here: what is stated below of a
    request is stated of an answered one. *)
Definition http (r : request) : M response :=
  fun s => ({| config := config s; config_json := config_json s; tokens := tokens s;
               st := st s; sent := sent s ++ [r] |}, Ok (network (sent s) r)).

(** [response.json()]. *)
Definition response_json (r : response) : result json :=
  match body r with
  | Some v => Ok v
  | None => Raise JSONDecodeError
  end.

(** ** The functions of [app.py] *)

Definition passes_filters (c : config_t) (token : json) : result bool :=
  let? liq := py_get token "liquidity" (JDict []) in
  let? usd := py_get liq "usd" (JInt 0) in
  let? liquidity := py_float usd in
  let? fdv := py_get token "fdv" (JInt 0) in
  let? market_cap := py_float fdv in
  Ok (py_ge (PFloat liquidity) (min_liquidity (filters c)) &&
      py_ge (PFloat market_cap) (min_market_cap (filters c))).

Definition is_blacklisted (token_address dev_address : json) : M bool :=
  c <- get_config ;;
  ret (py_in token_address (blacklisted_coins c) ||
       py_in dev_address (blacklisted_devs c)).

Definition check_rugcheck_status (token_address : string) : M json :=
  c <- get_config ;;
  let url := (rugcheck_api_url c ++ "?address=" ++ token_address)%string in
  response <- http (GET url) ;;
  if status_code response =? 200 then
    data <- lift (response_json response) ;;
    lift (py_get data "status" (JStr "Unknown"))
  else
    st_report (StRugcheckFailed token_address) ;;
    ret (JStr "Unknown").

(** The [for holder in holders] loop of [is_bundled_supply]. *)
Fixpoint bundled_loop (total_supply : float) (holders : list json) : result bool :=
  match holders with
  | [] => Ok false
  | holder :: rest =>
      let? b := py_get holder "balance" (JInt 0) in
      let? balance := py_float b in
      if py_gt (PFloat balance) (PFloat (float_mul float_half total_supply))
      then Ok true
      else bundled_loop total_supply rest
  end.

Definition is_bundled_supply (token_data : json) : result bool :=
  let? pair := py_get token_data "pair" (JDict []) in
  let? holders := py_get pair "holders" (JList []) in
  if py_truthy holders then
    let? pair := py_get token_data "pair" (JDict []) in
    let? ts := py_get pair "totalSupply" (JInt 0) in
    let? total_supply := py_float ts in
    let? items := py_iter holders in
    bundled_loop total_supply items
  else Ok false.

Definition add_to_blacklist (token_address dev_address : json) : M unit :=
  c <- get_config ;;
  (if negb (py_in token_address (blacklisted_coins c))
   then put_config (set_blacklisted_coins (blacklisted_coins c ++ [token_address]) c)
   else ret tt) ;;
  c <- get_config ;;
  (if negb (py_in dev_address (blacklisted_devs c))
   then put_config (set_blacklisted_devs (blacklisted_devs c ++ [dev_address]) c)
   else ret tt) ;;
  dump_config.

Definition execute_trade (token_address action : string) : M unit :=
  let url := "https://bonkbot.com/api/trade" in
  let payload := JDict [("token_address", JStr token_address); ("action", JStr action)] in
  response <- http (POST url BONKBOT_API_KEY payload) ;;
  if status_code response =? 200 then
    st_report (StTradeExecuted action token_address)
  else
    st_report (StTradeFailed action token_address).

Definition save_token_data (token_data : json) (token_address : string) : M unit :=
  token <- lift (py_get token_data "pair" (JDict [])) ;;
  symbol <- lift (let? b := py_get token "baseToken" (JDict []) in
                  py_get b "symbol" (JStr "")) ;;
  name <- lift (let? b := py_get token "baseToken" (JDict []) in
                py_get b "name" (JStr "")) ;;
  price <- lift (let? p := py_get token "priceUsd" (JInt 0) in py_float p) ;;
  liquidity <- lift (let? l := py_get token "liquidity" (JDict []) in
                     let? u := py_get l "usd" (JInt 0) in
                     py_float u) ;;
  market_cap <- lift (let? f := py_get token "fdv" (JInt 0) in py_float f) ;;
  dex_id <- lift (py_get token "dexId" JNull) ;;
  let is_cex_listed := if py_eq_str dex_id "cex" then 1 else 0 in
  let is_rugged :=
    if py_num_eq (PFloat liquidity) (PInt 0) && py_num_eq (PFloat price) (PInt 0)
    then 1 else 0 in
  let is_pumped := if py_gt (PFloat price) (PInt 1000) then 1 else 0 in
  dev_address <- lift (let? b := py_get token "baseToken" (JDict []) in
                       py_get b "address" (JStr "")) ;;
  is_bundled_supply_flag <- lift (is_bundled_supply token_data) ;;
  rugcheck_status <- check_rugcheck_status token_address ;;
  (if is_bundled_supply_flag : bool
   then add_to_blacklist (JStr token_address) dev_address
   else ret tt) ;;
  blacklisted <- is_blacklisted (JStr token_address) dev_address ;;
  if negb blacklisted && py_eq_str rugcheck_status "Good" then
    insert_token {| row_symbol := symbol; row_name := name; row_price := price;
                    row_liquidity := liquidity; row_market_cap := market_cap;
                    row_is_cex_listed := is_cex_listed; row_is_rugged := is_rugged;
                    row_is_pumped := is_pumped; row_is_fake_volume := 0;
                    row_dev_address := dev_address;
                    row_is_bundled_supply := is_bundled_supply_flag;
                    row_rugcheck_status := rugcheck_status |} ;;
    execute_trade token_address "buy"
  else ret tt.

Definition DEXSCREENER_API_URL : string :=
  "https://api.dexscreener.com/latest/dex/tokens/".

Definition fetch_token_data (token_address : string) : M json :=
  let url := (DEXSCREENER_API_URL ++ token_address)%string in
  response <- http (GET url) ;;
  if status_code response =? 200 then
    lift (response_json response)
  else
    st_report (StFetchFailed token_address) ;;
    ret JNull.

(** The body of the loop of [run_bot]: one monitored address. *)
Definition run_bot_step (address : string) : M unit :=
  token_data <- fetch_token_data address ;;
  if py_truthy token_data then
    pair <- lift (py_get token_data "pair" (JDict [])) ;;
    c <- get_config ;;
    passes <- lift (passes_filters c pair) ;;
    if passes : bool then save_token_data token_data address else ret tt
  else ret tt.

(** The loop of [run_bot] over its [token_addresses]; an exception leaves
    the loop.  What follows it in [run_bot], [analyze_data], reads the table
    and draws it. *)
Fixpoint run_bot_loop (token_addresses : list string) : M unit :=
  match token_addresses with
  | [] => ret tt
  | address :: rest => run_bot_step address ;; run_bot_loop rest
  end.

(** ** Reading a record by path

    The vocabulary of the statements: a field named by its path
    ([liquidity.usd], [pair.baseToken.address]) is absent as soon as one
    key of the path is absent; going through a value that is not a dict
    raises, as [.get] does. *)

Fixpoint field (path : list string) (v : json) : result (option json) :=
  match path with
  | [] => Ok (Some v)
  | k :: rest =>
      match v with
      | JDict d =>
          match assoc k d with
          | Some x => field rest x
          | None => Ok None
          end
      | _ => Raise AttributeError
      end
  end.

Definition value_or (default : json) (o : option json) : json :=
  match o with
  | Some v => v
  | None => default
  end.

(** A numeric field: zero when absent, else its value as a float. *)
Definition number_or_zero (o : option json) : result float :=
  match o with
  | None => Ok float_zero
  | Some v => py_float v
  end.

Definition number_at (path : list string) (v : json) : result float :=
  let? o := field path v in number_or_zero o.

(** The values [float()] converts. *)
Definition is_number (v : json) : bool :=
  match v with
  | JFloat _ | JBool _ => true
  | JInt z => match float_of_int z with Ok _ => true | Raise _ => false end
  | JStr s => match float_of_str s with Some _ => true | None => false end
  | JNull | JList _ | JDict _ => false
  end.

(** The field is absent or holds a number. *)
Definition readable_number (path : list string) (v : json) : bool :=
  match field path v with
  | Ok None => true
  | Ok (Some x) => is_number x
  | Raise _ => false
  end.

Definition float_is_zero (f : float) : bool :=
  match f with
  | S754_zero _ => true
  | _ => false
  end.

(** Strictly positive: a positive finite number or plus infinity. *)
Definition float_positive (f : float) : bool :=
  match f with
  | S754_finite false _ _ | S754_infinity false => true
  | _ => false
  end.

(** How many items of a list [x in ...] would match. *)
Definition occurrences (x : json) (l : list json) : nat :=
  List.length (filter (py_same x) l).

(** What [add_to_blacklist] leaves in [config]: each address appended to
    its list unless the list has it. *)
Definition blacklist_add (token_address dev_address : json) (c : config_t) : config_t :=
  let c1 := if py_in token_address (blacklisted_coins c) then c
            else set_blacklisted_coins (blacklisted_coins c ++ [token_address]) c in
  if py_in dev_address (blacklisted_devs c1) then c1
  else set_blacklisted_devs (blacklisted_devs c1 ++ [dev_address]) c1.

(** What [save_token_data] extracts from a response before it calls the
    audit endpoint (its block "Extract relevant data"). *)
Record observation : Type := {
  obs_symbol : json;
  obs_name : json;
  obs_price : float;
  obs_liquidity : float;
  obs_market_cap : float;
  obs_dex_id : json;
  obs_dev_address : json;
  obs_bundled : bool
}.

Definition value_at (path : list string) (default : json) (v : json) : result json :=
  let? o := field path v in Ok (value_or default o).

Definition extract_observation (token_data : json) : result observation :=
  let? symbol := value_at ["pair"; "baseToken"; "symbol"] (JStr "") token_data in
  let? name := value_at ["pair"; "baseToken"; "name"] (JStr "") token_data in
  let? price := number_at ["pair"; "priceUsd"] token_data in
  let? liquidity := number_at ["pair"; "liquidity"; "usd"] token_data in
  let? market_cap := number_at ["pair"; "fdv"] token_data in
  let? dex_id := value_at ["pair"; "dexId"] JNull token_data in
  let? dev_address := value_at ["pair"; "baseToken"; "address"] (JStr "") token_data in
  let? flag := is_bundled_supply token_data in
  Ok {| obs_symbol := symbol; obs_name := name; obs_price := price;
        obs_liquidity := liquidity; obs_market_cap := market_cap;
        obs_dex_id := dex_id; obs_dev_address := dev_address;
        obs_bundled := flag |}.

(** The row bound by the INSERT for an observation and an audit status. *)
Definition make_row (o : observation) (rugcheck_status : json) : row :=
  {| row_symbol := obs_symbol o;
     row_name := obs_name o;
     row_price := obs_price o;
     row_liquidity := obs_liquidity o;
     row_market_cap := obs_market_cap o;
     row_is_cex_listed := if py_eq_str (obs_dex_id o) "cex" then 1 else 0;
     row_is_rugged :=
       if py_num_eq (PFloat (obs_liquidity o)) (PInt 0) &&
          py_num_eq (PFloat (obs_price o)) (PInt 0)
       then 1 else 0;
     row_is_pumped := if py_gt (PFloat (obs_price o)) (PInt 1000) then 1 else 0;
     row_is_fake_volume := 0;
     row_dev_address := obs_dev_address o;
     row_is_bundled_supply := obs_bundled o;
     row_rugcheck_status := rugcheck_status |}.

(** [save_token_data] from the audit call on. *)
Definition decide_and_store (o : observation) (token_address : string) : M unit :=
  rugcheck_status <- check_rugcheck_status token_address ;;
  (if obs_bundled o
   then add_to_blacklist (JStr token_address) (obs_dev_address o)
   else ret tt) ;;
  blacklisted <- is_blacklisted (JStr token_address) (obs_dev_address o) ;;
  if negb blacklisted && py_eq_str rugcheck_status "Good" then
    insert_token (make_row o rugcheck_status) ;;
    execute_trade token_address "buy"
  else ret tt.

(** The condition under which a pass stores its observation: the audit
    returned "Good", the supply is not bundled, neither address is on its
    blacklist, and SQLite takes the parameters. *)
Definition stores (o : observation) (token_address : string) (s : state)
    (rugcheck_status : json) : Prop :=
  snd (check_rugcheck_status token_address s) = Ok rugcheck_status /\
  rugcheck_status = JStr "Good" /\
  obs_bundled o = false /\
  py_in (JStr token_address) (blacklisted_coins (config s)) = false /\
  py_in (obs_dev_address o) (blacklisted_devs (config s)) = false /\
  bind_parameters (make_row o rugcheck_status) = Ok tt.

(** [holder.get('balance', 0)] as a float. *)
Definition holder_balance (holder : json) : result float :=
  number_at ["balance"] holder.

(** What every row written by [save_token_data] has in common. *)
Definition row_invariant (r : row) : Prop :=
  row_rugcheck_status r = JStr "Good" /\
  row_is_bundled_supply r = false /\
  row_is_fake_volume r = 0.

(** The configuration [c'] is [c] with items appended to its blacklists. *)
Definition config_grows (c c' : config_t) : Prop :=
  (exists more, blacklisted_coins c' = blacklisted_coins c ++ more) /\
  (exists more, blacklisted_devs c' = blacklisted_devs c ++ more) /\
  filters c' = filters c /\
  rugcheck_api_url c' = rugcheck_api_url c /\
  telegram_bot_token c' = telegram_bot_token c /\
  telegram_chat_id c' = telegram_chat_id c /\
  bonkbot_api_key c' = bonkbot_api_key c.

(** A threshold above zero. *)
Definition num_positive (n : pynum) : bool :=
  match n with
  | PInt z => 0 <? z
  | PFloat f => float_positive f
  end.

(** The balance is above half of the supply, as the loop tests it. *)
Definition above_half (total_supply : float) (holder : json) : Prop :=
  exists b, holder_balance holder = Ok b /\
            py_gt (PFloat b) (PFloat (float_mul float_half total_supply)) = true.

(** The balance reads as a number that is not above half of the supply. *)
Definition below_half (total_supply : float) (holder : json) : Prop :=
  exists b, holder_balance holder = Ok b /\
            py_gt (PFloat b) (PFloat (float_mul float_half total_supply)) = false.

(** The URLs and the order of [save_token_data]'s requests. *)
Definition audit_request (token_address : string) (s : state) : request :=
  GET (rugcheck_api_url (config s) ++ "?address=" ++ token_address)%string.

Definition buy_request (token_address : string) : request :=
  POST "https://bonkbot.com/api/trade" BONKBOT_API_KEY
    (JDict [("token_address", JStr token_address); ("action", JStr "buy")]).

(** ** Basic facts *)

Lemma float_of_int_zero : float_of_int 0 = Ok float_zero.
Proof. reflexivity. Qed.

Lemma py_get_number (v : json) (k : string) :
  (let? x := py_get v k (JInt 0) in py_float x) = number_at [k] v.
Proof.
  unfold number_at. destruct v; simpl; try reflexivity.
  destruct (assoc k d); reflexivity.
Qed.

Lemma py_get_number2 (v : json) (k1 k2 : string) :
  (let? l := py_get v k1 (JDict []) in
   let? u := py_get l k2 (JInt 0) in
   py_float u) = number_at [k1; k2] v.
Proof.
  unfold number_at. destruct v; simpl; try reflexivity.
  destruct (assoc k1 d) as [x|]; simpl; [|reflexivity].
  destruct x; simpl; try reflexivity.
  destruct (assoc k2 d0); reflexivity.
Qed.

Lemma py_get_value (v : json) (k : string) (default : json) :
  py_get v k default = let? o := field [k] v in Ok (value_or default o).
Proof.
  destruct v; simpl; try reflexivity. destruct (assoc k d); reflexivity.
Qed.

Lemma py_get_value2 (v : json) (k1 k2 : string) (default : json) :
  (let? b := py_get v k1 (JDict []) in py_get b k2 default)
  = let? o := field [k1; k2] v in Ok (value_or default o).
Proof.
  destruct v; simpl; try reflexivity.
  destruct (assoc k1 d) as [x|]; simpl; [|reflexivity].
  destruct x; simpl; try reflexivity.
  destruct (assoc k2 d0); reflexivity.
Qed.

(** [passes_filters] reads its two numbers and compares them. *)
Lemma passes_filters_eq (c : config_t) (token : json) :
  passes_filters c token =
  let? liquidity := number_at ["liquidity"; "usd"] token in
  let? market_cap := number_at ["fdv"] token in
  Ok (py_ge (PFloat liquidity) (min_liquidity (filters c)) &&
      py_ge (PFloat market_cap) (min_market_cap (filters c))).
Proof.
  rewrite <- py_get_number2, <- py_get_number. unfold passes_filters.
  destruct (py_get token "liquidity" (JDict [])) as [l|]; simpl; [|reflexivity].
  destruct (py_get l "usd" (JInt 0)) as [u|]; simpl; [|reflexivity].
  destruct (py_float u); simpl; [|reflexivity].
  destruct (py_get token "fdv" (JInt 0)); reflexivity.
Qed.


Lemma is_number_float (v : json) :
  is_number v = true <-> exists f, py_float v = Ok f.
Proof.
  destruct v; simpl;
    try (split; [discriminate | intros [f H]; discriminate]);
    try (split; eauto).
  - destruct (float_of_int z); [eauto | discriminate].
  - intros [f H]. rewrite H. reflexivity.
  - destruct (float_of_str s); [eauto | discriminate].
  - intros [f H]. destruct (float_of_str s); [reflexivity | discriminate].
Qed.

Lemma readable_number_at (path : list string) (v : json) :
  readable_number path v = true <-> exists f, number_at path v = Ok f.
Proof.
  unfold readable_number, number_at.
  destruct (field path v) as [[x|]|e]; simpl.
  - apply is_number_float.
  - split; eauto.
  - split; [discriminate | intros [f H]; discriminate].
Qed.

(** ** The filter engine *)


(** C7, as the code has it.  [passes_filters] is a function of the
    configuration and the record alone.  It returns a boolean exactly when
    the fields [liquidity.usd] and [fdv] are each absent or a number
    ([liquidity] itself absent or a dict); absent values read as zero.  A
    value that is present and not a number is not coerced: the call
    raises. *)
Theorem passes_filters_returns_iff_numbers (c : config_t) (token : json) :
  ((exists b, passes_filters c token = Ok b) <->
     readable_number ["liquidity"; "usd"] token = true /\
     readable_number ["fdv"] token = true) /\
  ((exists e, passes_filters c token = Raise e) <->
     readable_number ["liquidity"; "usd"] token = false \/
     readable_number ["fdv"] token = false) /\
  (field ["liquidity"; "usd"] token = Ok None ->
   field ["fdv"] token = Ok None ->
   passes_filters c token =
     Ok (py_ge (PFloat float_zero) (min_liquidity (filters c)) &&
         py_ge (PFloat float_zero) (min_market_cap (filters c)))).
Proof.
  rewrite passes_filters_eq.
  split; [|split].
  - rewrite !readable_number_at. split.
    + intros [b H].
      destruct (number_at ["liquidity"; "usd"] token) as [l|]; [|discriminate].
      destruct (number_at ["fdv"] token) as [m|]; [|discriminate]. eauto.
    + intros [[l Hl] [m Hm]]. rewrite Hl, Hm. simpl. eauto.
  - split.
    + intros [e H].
      destruct (readable_number ["liquidity"; "usd"] token) eqn:R1; [|auto].
      destruct (readable_number ["fdv"] token) eqn:R2; [|auto].
      apply readable_number_at in R1, R2.
      destruct R1 as [l Hl], R2 as [m Hm]. rewrite Hl, Hm in H. discriminate.
    + intros [R|R].
      * destruct (number_at ["liquidity"; "usd"] token) as [l|e] eqn:E.
        -- assert (X : readable_number ["liquidity"; "usd"] token = true)
             by (apply readable_number_at; eauto). congruence.
        -- simpl. eauto.
      * destruct (number_at ["fdv"] token) as [m|e] eqn:E.
        -- assert (X : readable_number ["fdv"] token = true)
             by (apply readable_number_at; eauto). congruence.
        -- destruct (number_at ["liquidity"; "usd"] token); simpl; eauto.
  - intros H1 H2. unfold number_at. rewrite H1, H2. reflexivity.
Qed.

(** ** The audit status check *)

Lemma check_rugcheck_status_run (token_address : string) (s : state) :
  let url := (rugcheck_api_url (config s) ++ "?address=" ++ token_address)%string in
  let response := network (sent s) (GET url) in
  check_rugcheck_status token_address s =
  if status_code response =? 200 then
    ({| config := config s; config_json := config_json s; tokens := tokens s;
        st := st s; sent := sent s ++ [GET url] |},
     let? data := response_json response in py_get data "status" (JStr "Unknown"))
  else
    ({| config := config s; config_json := config_json s; tokens := tokens s;
        st := st s ++ [StRugcheckFailed token_address];
        sent := sent s ++ [GET url] |},
     Ok (JStr "Unknown")).
Proof.
  unfold check_rugcheck_status, bind, get_config, http, lift. cbn.
  destruct (status_code _ =? 200); [|reflexivity].
  destruct (response_json _) as [data|]; reflexivity.
Qed.

(** C8. [check_rugcheck_status] sends one GET to the audit endpoint.  On
    a 200 response whose JSON object carries a [status] field it returns
    that field; on any other status code, and on a 200 response whose JSON
    object has no [status] field, it returns the string "Unknown". *)
Theorem check_rugcheck_status_label (token_address : string) (s : state) :
  let url := (rugcheck_api_url (config s) ++ "?address=" ++ token_address)%string in
  let response := network (sent s) (GET url) in
  sent (fst (check_rugcheck_status token_address s)) = sent s ++ [GET url] /\
  (forall d label,
      status_code response = 200 ->
      body response = Some (JDict d) ->
      assoc "status" d = Some label ->
      snd (check_rugcheck_status token_address s) = Ok label) /\
  (status_code response <> 200 ->
   snd (check_rugcheck_status token_address s) = Ok (JStr "Unknown")) /\
  (forall d,
      status_code response = 200 ->
      body response = Some (JDict d) ->
      assoc "status" d = None ->
      snd (check_rugcheck_status token_address s) = Ok (JStr "Unknown")).
Proof.
  intros url response. rewrite check_rugcheck_status_run.
  fold url. fold response.
  split; [|split; [|split]].
  - destruct (status_code response =? 200); reflexivity.
  - intros d label H200 Hb Hs. rewrite H200. simpl.
    unfold response_json. rewrite Hb. simpl. rewrite Hs. reflexivity.
  - intros H. apply Z.eqb_neq in H. rewrite H. reflexivity.
  - intros d H200 Hb Hs. rewrite H200. simpl.
    unfold response_json. rewrite Hb. simpl. rewrite Hs. reflexivity.
Qed.

(** ** The blacklist store *)

Lemma add_to_blacklist_run (token_address dev_address : json) (s : state) :
  add_to_blacklist token_address dev_address s =
  ({| config := blacklist_add token_address dev_address (config s);
      config_json := blacklist_add token_address dev_address (config s);
      tokens := tokens s; st := st s; sent := sent s |}, Ok tt).
Proof.
  unfold add_to_blacklist, blacklist_add, bind, get_config, put_config, dump_config, ret.
  unfold py_in. cbn.
  destruct (existsb (py_same token_address) (blacklisted_coins (config s))); cbn;
    destruct (existsb (py_same dev_address) (blacklisted_devs (config s)));
    reflexivity.
Qed.

Lemma is_blacklisted_run (token_address dev_address : json) (s : state) :
  is_blacklisted token_address dev_address s =
  (s, Ok (py_in token_address (blacklisted_coins (config s)) ||
          py_in dev_address (blacklisted_devs (config s)))).
Proof. reflexivity. Qed.

Lemma json_nested_ind (P : json -> Prop) :
  P JNull ->
  (forall b, P (JBool b)) ->
  (forall z, P (JInt z)) ->
  (forall f, P (JFloat f)) ->
  (forall t, P (JStr t)) ->
  (forall l, Forall P l -> P (JList l)) ->
  (forall d, Forall (fun kv => P (snd kv)) d -> P (JDict d)) ->
  forall v, P v.
Proof.
  intros HN HB HI HF HS HL HD.
  fix IH 1. intros [ | b | z | f | t | l | d].
  - exact HN.
  - apply HB.
  - apply HI.
  - apply HF.
  - apply HS.
  - apply HL. induction l as [|x l IHl]; constructor; [apply IH | exact IHl].
  - apply HD. induction d as [|[k x] d IHd]; constructor; [apply IH | exact IHd].
Qed.

Lemma num_same_refl (x : pynum) : num_same x x = true.
Proof.
  destruct x as [z|f]; unfold num_same, py_num_eq; simpl.
  - rewrite Z.compare_refl. reflexivity.
  - destruct f as [sg|sg| |sg m e]; simpl; try reflexivity.
    + destruct sg; reflexivity.
    + destruct sg; rewrite Z.compare_refl, Pos.compare_cont_refl; reflexivity.
Qed.

(** An object is found by [in] in any list that holds it. *)
Lemma py_same_refl (v : json) : py_same v v = true.
Proof.
  induction v using json_nested_ind.
  - reflexivity.
  - exact (num_same_refl (PInt (if b then 1 else 0))).
  - exact (num_same_refl (PInt z)).
  - exact (num_same_refl (PFloat f)).
  - apply String.eqb_refl.
  - simpl. induction H as [|x l Hx _ IH]; [reflexivity|].
    rewrite Hx, IH. reflexivity.
  - simpl. rewrite Nat.eqb_refl. simpl.
    assert (G : forall l, incl l d -> Forall (fun kv => py_same (snd kv) (snd kv) = true) l ->
      (fix all (l : list (string * json)) : bool :=
         match l with
         | [] => true
         | (k, v) :: r =>
             existsb (fun kw => String.eqb k (fst kw) && py_same v (snd kw)) d && all r
         end) l = true).
    { induction l as [|[k v] l IHl]; intros Hin Hall; [reflexivity|].
      inversion Hall as [|? ? Hv Hrest]; subst. simpl in Hv.
      rewrite IHl; [|intros y Hy; apply Hin; right; exact Hy | exact Hrest].
      rewrite andb_true_r. apply existsb_exists. exists (k, v). split.
      - apply Hin. left. reflexivity.
      - simpl. rewrite String.eqb_refl, Hv. reflexivity. }
    apply G; [apply incl_refl | exact H].
Qed.

Lemma py_in_app (x : json) (l1 l2 : list json) :
  py_in x (l1 ++ l2) = py_in x l1 || py_in x l2.
Proof. apply existsb_app. Qed.

Lemma py_in_snoc (x : json) (l : list json) : py_in x (l ++ [x]) = true.
Proof.
  rewrite py_in_app. simpl. rewrite py_same_refl, orb_true_r. reflexivity.
Qed.

Lemma blacklist_add_coins (t d : json) (c : config_t) :
  blacklisted_coins (blacklist_add t d c) =
  if py_in t (blacklisted_coins c) then blacklisted_coins c
  else blacklisted_coins c ++ [t].
Proof.
  unfold blacklist_add.
  destruct (py_in t (blacklisted_coins c)); simpl;
    destruct (py_in d (blacklisted_devs c)); reflexivity.
Qed.

Lemma blacklist_add_devs (t d : json) (c : config_t) :
  blacklisted_devs (blacklist_add t d c) =
  if py_in d (blacklisted_devs c) then blacklisted_devs c
  else blacklisted_devs c ++ [d].
Proof.
  unfold blacklist_add.
  destruct (py_in t (blacklisted_coins c)); simpl;
    destruct (py_in d (blacklisted_devs c)); reflexivity.
Qed.

Lemma blacklist_add_has_coin (t d : json) (c : config_t) :
  py_in t (blacklisted_coins (blacklist_add t d c)) = true.
Proof.
  rewrite blacklist_add_coins.
  destruct (py_in t (blacklisted_coins c)) eqn:E; [exact E | apply py_in_snoc].
Qed.

Lemma blacklist_add_has_dev (t d : json) (c : config_t) :
  py_in d (blacklisted_devs (blacklist_add t d c)) = true.
Proof.
  rewrite blacklist_add_devs.
  destruct (py_in d (blacklisted_devs c)) eqn:E; [exact E | apply py_in_snoc].
Qed.

Lemma blacklist_add_present (t d : json) (c : config_t) :
  py_in t (blacklisted_coins c) = true ->
  py_in d (blacklisted_devs c) = true ->
  blacklist_add t d c = c.
Proof.
  intros Ht Hd. unfold blacklist_add. rewrite Ht, Hd. reflexivity.
Qed.

Lemma blacklist_add_idem (t d : json) (c : config_t) :
  blacklist_add t d (blacklist_add t d c) = blacklist_add t d c.
Proof.
  apply blacklist_add_present;
    [apply blacklist_add_has_coin | apply blacklist_add_has_dev].
Qed.

Lemma occurrences_absent (x : json) (l : list json) :
  py_in x l = false -> occurrences x l = 0%nat.
Proof.
  unfold occurrences, py_in. induction l as [|y l IH]; simpl; [reflexivity|].
  destruct (py_same x y); simpl; [discriminate | exact IH].
Qed.

Lemma occurrences_present (x : json) (l : list json) :
  py_in x l = true -> (1 <= occurrences x l)%nat.
Proof.
  unfold occurrences, py_in. induction l as [|y l IH]; simpl; [discriminate|].
  destruct (py_same x y); simpl; [lia | exact IH].
Qed.

Lemma occurrences_snoc (x : json) (l : list json) :
  occurrences x (l ++ [x]) = S (occurrences x l).
Proof.
  unfold occurrences. rewrite filter_app, length_app. simpl.
  rewrite py_same_refl. simpl. lia.
Qed.

(** C6. Adding the same token and developer addresses a second time
    changes nothing: the process state, and with it the content of
    [config.json], is what the first addition left.  Where a list held an
    address at most once before, it holds it exactly once afterwards. *)
Theorem add_to_blacklist_idempotent (token_address dev_address : json) (s : state) :
  let s1 := fst (add_to_blacklist token_address dev_address s) in
  let s2 := fst (add_to_blacklist token_address dev_address s1) in
  s2 = s1 /\
  config_json s2 = config_json s1 /\
  config_json s1 = config s1 /\
  ((occurrences token_address (blacklisted_coins (config s)) <= 1)%nat ->
   occurrences token_address (blacklisted_coins (config s2)) = 1%nat) /\
  ((occurrences dev_address (blacklisted_devs (config s)) <= 1)%nat ->
   occurrences dev_address (blacklisted_devs (config s2)) = 1%nat).
Proof.
  intros s1 s2. subst s2 s1. rewrite !add_to_blacklist_run. cbn [fst config config_json].
  rewrite !blacklist_add_idem.
  split; [reflexivity|]. split; [reflexivity|]. split; [reflexivity|].
  rewrite blacklist_add_coins, blacklist_add_devs. split; intros H.
  - destruct (py_in token_address (blacklisted_coins (config s))) eqn:E.
    + apply occurrences_present in E. lia.
    + rewrite occurrences_snoc, (occurrences_absent _ _ E). reflexivity.
  - destruct (py_in dev_address (blacklisted_devs (config s))) eqn:E.
    + apply occurrences_present in E. lia.
    + rewrite occurrences_snoc, (occurrences_absent _ _ E). reflexivity.
Qed.

(** ** The bundled-supply check *)

Lemma is_bundled_supply_eq (token_data : json) :
  is_bundled_supply token_data =
  let? o := field ["pair"; "holders"] token_data in
  let holders := value_or (JList []) o in
  if py_truthy holders then
    let? total_supply := number_at ["pair"; "totalSupply"] token_data in
    let? items := py_iter holders in
    bundled_loop total_supply items
  else Ok false.
Proof.
  unfold is_bundled_supply.
  rewrite <- py_get_number2.
  pose proof (py_get_value2 token_data "pair" "holders" (JList [])) as E.
  destruct (py_get token_data "pair" (JDict [])) as [pair|e]; cbn [rbind] in *.
  - rewrite E.
    destruct (field ["pair"; "holders"] token_data) as [o|]; cbn [rbind]; [|reflexivity].
    destruct (py_truthy (value_or (JList []) o)); [|reflexivity].
    destruct (py_get pair "totalSupply" (JInt 0)) as [ts|]; cbn [rbind]; [|reflexivity].
    destruct (py_float ts); reflexivity.
  - destruct (field ["pair"; "holders"] token_data) as [o|e']; cbn [rbind] in *;
      [discriminate | injection E as ->; reflexivity].
Qed.

Lemma bundled_loop_cons (total_supply : float) (holder : json) (rest : list json) :
  bundled_loop total_supply (holder :: rest) =
  let? balance := holder_balance holder in
  if py_gt (PFloat balance) (PFloat (float_mul float_half total_supply))
  then Ok true
  else bundled_loop total_supply rest.
Proof.
  unfold holder_balance. rewrite <- py_get_number. cbn [bundled_loop].
  destruct (py_get holder "balance" (JInt 0)) as [b|]; cbn [rbind]; [|reflexivity].
  destruct (py_float b); reflexivity.
Qed.


(** X23. For a normal total supply of magnitude at least [2 ^ -1021]
    (a 53-bit mantissa with an exponent above the lowest, -1074), the
    threshold [0.5 * total_supply] of [is_bundled_supply] is its exact
    half: the same mantissa, the exponent one lower. *)
Lemma float_half_normal (sg : bool) (m : positive) (e : Z) :
  digits2_pos m = 53%positive -> -1074 < e <= 971 ->
  float_mul float_half (S754_finite sg m e) = S754_finite sg m (e - 1).
Proof.
  intros Hd He. unfold float_mul, float_half, SFmul.
  cbn [xorb]. unfold binary_round_aux.
  assert (S1 : shr_fexp 53 1024 (Z.pos (4503599627370496 * m)) (-53 + e) loc_Exact
               = ({| shr_m := Z.pos m; shr_r := false; shr_s := false |}, e - 1)).
  { unfold shr_fexp, Zdigits2. cbn [Pos.mul digits2_pos]. rewrite Hd. cbn [Pos.succ].
    unfold fexp, emin.
    replace (Z.max (Z.pos 105 + (-53 + e) - 53) (3 - 1024 - 53) - (-53 + e))
      with 52 by lia.
    cbn [shr_record_of_loc shr iter_pos shr_1 orb]. f_equal. lia. }
  rewrite S1. cbn [shr_m loc_of_shr_record round_nearest_even].
  unfold shr_fexp, Zdigits2, fexp, emin. rewrite Hd.
  replace (Z.max (Z.pos 53 + (e - 1) - 53) (3 - 1024 - 53) - (e - 1)) with 0 by lia.
  cbn [shr_record_of_loc shr shr_m].
  destruct (e - 1 <=? 1024 - 53) eqn:L; [reflexivity|].
  apply Z.leb_gt in L. lia.
Qed.









(** ** The pipeline pass *)

Lemma field_pair (token_data token : json) (k : string) (path : list string) :
  py_get token_data "pair" (JDict []) = Ok token ->
  field ("pair" :: k :: path) token_data = field (k :: path) token.
Proof.
  destruct token_data; try discriminate. cbn [py_get field].
  destruct (assoc "pair" d); intros H; injection H as <-; reflexivity.
Qed.

Lemma field_pair_raise (token_data : json) (e : exn) (k : string) (path : list string) :
  py_get token_data "pair" (JDict []) = Raise e ->
  field ("pair" :: k :: path) token_data = Raise e.
Proof.
  destruct token_data; try discriminate; intros H; injection H as <-; reflexivity.
Qed.

Lemma bind_lift {A B} (r : result A) (k : A -> M B) (s : state) :
  bind (lift r) k s = match r with Ok a => k a s | Raise e => (s, Raise e) end.
Proof. unfold bind, lift. destruct r; reflexivity. Qed.

(** [save_token_data] extracts the observation, raising what the
    extraction raises, then decides and stores. *)
Lemma save_token_data_run (token_data : json) (token_address : string) (s : state) :
  save_token_data token_data token_address s =
  match extract_observation token_data with
  | Ok o => decide_and_store o token_address s
  | Raise e => (s, Raise e)
  end.
Proof.
  unfold save_token_data, extract_observation, value_at, number_at.
  rewrite bind_lift.
  destruct (py_get token_data "pair" (JDict [])) as [token|e] eqn:Hp.
  2:{ rewrite (field_pair_raise _ _ _ _ Hp). reflexivity. }
  rewrite !(field_pair _ _ _ _ Hp).
  rewrite bind_lift, py_get_value2.
  destruct (field ["baseToken"; "symbol"] token) as [o1|]; cbn [rbind]; [|reflexivity].
  rewrite bind_lift, py_get_value2.
  destruct (field ["baseToken"; "name"] token) as [o2|]; cbn [rbind]; [|reflexivity].
  rewrite bind_lift, py_get_number. unfold number_at.
  destruct (field ["priceUsd"] token) as [o3|]; cbn [rbind]; [|reflexivity].
  destruct (number_or_zero o3) as [price|]; cbn [rbind]; [|reflexivity].
  rewrite bind_lift, py_get_number2. unfold number_at.
  destruct (field ["liquidity"; "usd"] token) as [o4|]; cbn [rbind]; [|reflexivity].
  destruct (number_or_zero o4) as [liquidity|]; cbn [rbind]; [|reflexivity].
  rewrite bind_lift, py_get_number. unfold number_at.
  destruct (field ["fdv"] token) as [o5|]; cbn [rbind]; [|reflexivity].
  destruct (number_or_zero o5) as [market_cap|]; cbn [rbind]; [|reflexivity].
  rewrite bind_lift, py_get_value.
  destruct (field ["dexId"] token) as [o6|]; cbn [rbind]; [|reflexivity].
  rewrite bind_lift, py_get_value2.
  destruct (field ["baseToken"; "address"] token) as [o7|]; cbn [rbind]; [|reflexivity].
  rewrite bind_lift.
  destruct (is_bundled_supply token_data) as [flag|]; cbn [rbind]; reflexivity.
Qed.

Lemma check_rugcheck_status_frame (token_address : string) (s : state) :
  let s1 := fst (check_rugcheck_status token_address s) in
  config s1 = config s /\ config_json s1 = config_json s /\ tokens s1 = tokens s.
Proof.
  cbv zeta. rewrite check_rugcheck_status_run. cbv zeta.
  destruct (status_code _ =? 200); cbn; auto.
Qed.

Lemma execute_trade_frame (token_address action : string) (s : state) :
  let s1 := fst (execute_trade token_address action s) in
  snd (execute_trade token_address action s) = Ok tt /\
  config s1 = config s /\ config_json s1 = config_json s /\ tokens s1 = tokens s.
Proof.
  unfold execute_trade, bind, http, st_report. cbn.
  destruct (status_code _ =? 200); cbn; auto.
Qed.

Lemma py_eq_str_true (v : json) (t : string) :
  py_eq_str v t = true <-> v = JStr t.
Proof.
  destruct v; simpl; try (split; [discriminate | intros H; discriminate]).
  rewrite String.eqb_eq. split; [intros ->; reflexivity | intros H; injection H; auto].
Qed.

(** The state in which [save_token_data] evaluates its insertion gate,
    after an audit that left the state [s1]. *)
Lemma decide_and_store_run (o : observation) (token_address : string) (s : state) :
  let s1 := fst (check_rugcheck_status token_address s) in
  let gate_state :=
    if obs_bundled o
    then fst (add_to_blacklist (JStr token_address) (obs_dev_address o) s1)
    else s1 in
  decide_and_store o token_address s =
  match snd (check_rugcheck_status token_address s) with
  | Raise e => (s1, Raise e)
  | Ok rugcheck_status =>
      if negb (py_in (JStr token_address) (blacklisted_coins (config gate_state)) ||
               py_in (obs_dev_address o) (blacklisted_devs (config gate_state)))
         && py_eq_str rugcheck_status "Good"
      then
        match bind_parameters (make_row o rugcheck_status) with
        | Ok _ =>
            execute_trade token_address "buy"
              (fst (insert_token (make_row o rugcheck_status) gate_state))
        | Raise e => (gate_state, Raise e)
        end
      else (gate_state, Ok tt)
  end.
Proof.
  cbv zeta. unfold decide_and_store. unfold bind at 1.
  destruct (check_rugcheck_status token_address s) as [s1 [status|e]]; cbn [fst snd];
    [|reflexivity].
  unfold bind at 1.
  destruct (obs_bundled o).
  - rewrite add_to_blacklist_run. cbn [fst]. unfold bind at 1.
    rewrite is_blacklisted_run. cbn [config].
    destruct (negb _ && _); [|reflexivity].
    unfold bind, insert_token. destruct (bind_parameters _); reflexivity.
  - unfold ret at 1. unfold bind at 1. rewrite is_blacklisted_run.
    destruct (negb _ && _); [|reflexivity].
    unfold bind, insert_token. destruct (bind_parameters _); reflexivity.
Qed.

Lemma app_one_neq {A} (l : list A) (x : A) : l ++ [x] <> l.
Proof.
  intros H. apply (f_equal (@List.length A)) in H.
  rewrite length_app in H. simpl in H. lia.
Qed.

(** A pass either leaves the table alone, or meets [stores] and appends
    the one row built from its observation, in the state the audit left. *)
Lemma decide_and_store_outcome (o : observation) (token_address : string) (s : state) :
  let s1 := fst (check_rugcheck_status token_address s) in
  let s' := fst (decide_and_store o token_address s) in
  (tokens s' = tokens s /\ ~ exists status, stores o token_address s status) \/
  (exists status,
      stores o token_address s status /\
      s' = fst (execute_trade token_address "buy"
                  (fst (insert_token (make_row o status) s1))) /\
      tokens s' = tokens s ++ [make_row o status]).
Proof.
  cbv zeta. rewrite decide_and_store_run. cbv zeta.
  pose proof (check_rugcheck_status_frame token_address s) as F. cbv zeta in F.
  destruct F as (Fc & _ & Ft).
  unfold stores.
  destruct (snd (check_rugcheck_status token_address s)) as [status|e] eqn:Hs.
  2:{ left. cbn [fst]. split; [exact Ft|]. intros (st0 & H & _). discriminate. }
  destruct (obs_bundled o) eqn:Hb.
  - rewrite add_to_blacklist_run. cbn [fst config].
    rewrite blacklist_add_has_coin. cbn [orb negb andb fst tokens].
    left. split; [exact Ft|]. intros (st0 & _ & _ & H & _). discriminate.
  - rewrite Fc.
    destruct (py_in (JStr token_address) (blacklisted_coins (config s))) eqn:Hc.
    { cbn [orb negb andb fst]. left. split; [exact Ft|].
      intros (st0 & _ & _ & _ & H & _). discriminate. }
    destruct (py_in (obs_dev_address o) (blacklisted_devs (config s))) eqn:Hd.
    { cbn [orb negb andb fst]. left. split; [exact Ft|].
      intros (st0 & _ & _ & _ & _ & H & _). discriminate. }
    cbn [orb negb andb].
    destruct (py_eq_str status "Good") eqn:Hg.
    2:{ cbn [fst]. left. split; [exact Ft|].
        intros (st0 & H1 & H2 & _). injection H1 as <-.
        apply py_eq_str_true in H2. congruence. }
    apply py_eq_str_true in Hg.
    destruct (bind_parameters (make_row o status)) as [[]|e] eqn:Hbind.
    2:{ cbn [fst]. left. split; [exact Ft|].
        intros (st0 & H1 & _ & _ & _ & _ & H6). injection H1 as <-. congruence. }
    right. exists status. split; [auto 10|]. split; [reflexivity|].
    pose proof (execute_trade_frame token_address "buy"
                  (fst (insert_token (make_row o status)
                          (fst (check_rugcheck_status token_address s))))) as E.
    cbv zeta in E. destruct E as (_ & _ & _ & Et). rewrite Et.
    unfold insert_token. rewrite Hbind. cbn [fst tokens]. rewrite Ft. reflexivity.
Qed.

(** The same for [save_token_data]: no row without an observation. *)
Lemma save_token_data_outcome (token_data : json) (token_address : string) (s : state) :
  let s1 := fst (check_rugcheck_status token_address s) in
  let s' := fst (save_token_data token_data token_address s) in
  tokens s' = tokens s \/
  (exists o status,
      extract_observation token_data = Ok o /\
      stores o token_address s status /\
      s' = fst (execute_trade token_address "buy"
                  (fst (insert_token (make_row o status) s1))) /\
      tokens s' = tokens s ++ [make_row o status]).
Proof.
  cbv zeta. rewrite save_token_data_run.
  destruct (extract_observation token_data) as [o|e]; [|left; reflexivity].
  destruct (decide_and_store_outcome o token_address s) as [[H _]|(status & H)].
  - left. exact H.
  - right. exists o, status. split; [reflexivity | exact H].
Qed.

(** C1. A pass of [save_token_data] adds a row to [tokens] only if, in
    the state in which the INSERT runs, the token address is not in
    [blacklisted_coins], the developer address is not in
    [blacklisted_devs], and the status the audit returned in this pass is
    the string "Good". *)
Theorem insert_only_if_clear_and_good (token_data : json) (token_address : string)
    (s : state) :
  let s' := fst (save_token_data token_data token_address s) in
  let at_insert := fst (check_rugcheck_status token_address s) in
  tokens s' <> tokens s ->
  exists r rugcheck_status,
    tokens s' = tokens s ++ [r] /\
    s' = fst (execute_trade token_address "buy" (fst (insert_token r at_insert))) /\
    snd (check_rugcheck_status token_address s) = Ok rugcheck_status /\
    rugcheck_status = JStr "Good" /\
    row_rugcheck_status r = JStr "Good" /\
    py_in (JStr token_address) (blacklisted_coins (config at_insert)) = false /\
    py_in (row_dev_address r) (blacklisted_devs (config at_insert)) = false /\
    snd (is_blacklisted (JStr token_address) (row_dev_address r) at_insert) = Ok false.
Proof.
  cbv zeta. intros Hne.
  destruct (save_token_data_outcome token_data token_address s)
    as [H|(o & status & _ & Hst & Hs' & Ht)]; [contradiction|].
  destruct Hst as (Ha & Hg & _ & Hc & Hd & _).
  pose proof (check_rugcheck_status_frame token_address s) as F. cbv zeta in F.
  destruct F as (Fc & _ & _).
  exists (make_row o status), status.
  rewrite is_blacklisted_run, Fc. cbn [snd row_dev_address row_rugcheck_status make_row].
  rewrite Hc, Hd. auto 10.
Qed.

Lemma extract_observation_fields (token_data : json) (o : observation) :
  extract_observation token_data = Ok o ->
  number_at ["pair"; "priceUsd"] token_data = Ok (obs_price o) /\
  number_at ["pair"; "liquidity"; "usd"] token_data = Ok (obs_liquidity o) /\
  value_at ["pair"; "baseToken"; "address"] (JStr "") token_data = Ok (obs_dev_address o) /\
  is_bundled_supply token_data = Ok (obs_bundled o).
Proof.
  unfold extract_observation.
  destruct (value_at ["pair"; "baseToken"; "symbol"] _ _); cbn [rbind]; [|discriminate].
  destruct (value_at ["pair"; "baseToken"; "name"] _ _); cbn [rbind]; [|discriminate].
  destruct (number_at ["pair"; "priceUsd"] _); cbn [rbind]; [|discriminate].
  destruct (number_at ["pair"; "liquidity"; "usd"] _); cbn [rbind]; [|discriminate].
  destruct (number_at ["pair"; "fdv"] _); cbn [rbind]; [|discriminate].
  destruct (value_at ["pair"; "dexId"] _ _); cbn [rbind]; [|discriminate].
  destruct (value_at ["pair"; "baseToken"; "address"] _ _); cbn [rbind]; [|discriminate].
  destruct (is_bundled_supply _); cbn [rbind]; [|discriminate].
  intros H. injection H as <-. cbn. auto.
Qed.

Lemma py_num_eq_zero (f : float) : py_num_eq (PFloat f) (PInt 0) = float_is_zero f.
Proof.
  unfold py_num_eq. destruct f as [sg|sg| |sg m e]; cbn [py_compare compare_float_int float_is_zero].
  - reflexivity.
  - destruct sg; reflexivity.
  - reflexivity.
  - destruct (0 <=? e) eqn:He.
    + apply Z.leb_le in He.
      assert (P : 0 < 2 ^ e) by (apply Z.pow_pos_nonneg; lia).
      destruct ((if sg then Z.neg m else Z.pos m) * 2 ^ e ?= 0) eqn:C; try reflexivity.
      apply Z.compare_eq in C. destruct sg; lia.
    + destruct sg; reflexivity.
Qed.

(** A pass that finds the supply bundled leaves the table alone; once the
    audit has returned, the addresses are on the blacklists and in the
    file. *)
Lemma bundled_pass (token_data : json) (token_address : string) (s : state) :
  is_bundled_supply token_data = Ok true ->
  let s' := fst (save_token_data token_data token_address s) in
  tokens s' = tokens s /\
  forall o rugcheck_status,
    extract_observation token_data = Ok o ->
    snd (check_rugcheck_status token_address s) = Ok rugcheck_status ->
    snd (save_token_data token_data token_address s) = Ok tt /\
    config s' = blacklist_add (JStr token_address) (obs_dev_address o) (config s) /\
    config_json s' = config s'.
Proof.
  intros Hb. cbv zeta. split.
  - destruct (save_token_data_outcome token_data token_address s)
      as [H|(o & status & Ho & Hst & _)]; [exact H|].
    apply extract_observation_fields in Ho. destruct Ho as (_ & _ & _ & Ho).
    destruct Hst as (_ & _ & Hf & _). congruence.
  - intros o status Ho Hs. rewrite save_token_data_run, Ho.
    apply extract_observation_fields in Ho. destruct Ho as (_ & _ & _ & Ho).
    assert (Hf : obs_bundled o = true) by congruence.
    rewrite decide_and_store_run. cbv zeta. rewrite Hs, Hf.
    rewrite add_to_blacklist_run. cbn [fst config].
    rewrite blacklist_add_has_coin. cbn [orb negb andb fst snd config config_json].
    pose proof (check_rugcheck_status_frame token_address s) as F. cbv zeta in F.
    destruct F as (Fc & _ & _). rewrite Fc. auto.
Qed.


(** C5. In every row that [save_token_data] inserts, [is_rugged] is 1
    when the liquidity and the price of the pair, as stored in the row, are
    both zero, and 0 for every other combination. *)
Theorem inserted_row_rugged_flag (token_data : json) (token_address : string)
    (s : state) (r : row) :
  tokens (fst (save_token_data token_data token_address s)) = tokens s ++ [r] ->
  number_at ["pair"; "liquidity"; "usd"] token_data = Ok (row_liquidity r) /\
  number_at ["pair"; "priceUsd"] token_data = Ok (row_price r) /\
  (row_is_rugged r = 1 <->
     float_is_zero (row_liquidity r) = true /\ float_is_zero (row_price r) = true) /\
  (row_is_rugged r = 0 <->
     ~ (float_is_zero (row_liquidity r) = true /\ float_is_zero (row_price r) = true)).
Proof.
  intros H.
  destruct (save_token_data_outcome token_data token_address s)
    as [E|(o & status & Ho & _ & _ & Ht)].
  - rewrite E in H. symmetry in H. apply app_one_neq in H. contradiction.
  - rewrite Ht in H. apply app_inv_head in H. injection H as <-.
    apply extract_observation_fields in Ho. destruct Ho as (Hp & Hl & _).
    cbn [make_row row_liquidity row_price row_is_rugged].
    rewrite !py_num_eq_zero.
    split; [exact Hl|]. split; [exact Hp|].
    destruct (float_is_zero (obs_liquidity o)), (float_is_zero (obs_price o));
      cbn [andb]; split; split; try discriminate; try reflexivity; try tauto;
      intros; intuition discriminate.
Qed.

(** C10. The developer address of a pass is the field
    [pair.baseToken.address] of the response, the empty string when it is
    absent.  It is that value the gate looks up in [blacklisted_devs], that
    value the inserted row stores, and that value a bundled supply puts on
    [blacklisted_devs]. *)
Theorem dev_address_is_base_token_address (token_data : json) (token_address : string)
    (s : state) (o : observation) (a : option json) :
  extract_observation token_data = Ok o ->
  field ["pair"; "baseToken"; "address"] token_data = Ok a ->
  let dev := value_or (JStr "") a in
  let s' := fst (save_token_data token_data token_address s) in
  obs_dev_address o = dev /\
  (py_in dev (blacklisted_devs (config s)) = true -> tokens s' = tokens s) /\
  (forall r, tokens s' = tokens s ++ [r] ->
     row_dev_address r = dev /\ py_in dev (blacklisted_devs (config s)) = false) /\
  (forall rugcheck_status,
     obs_bundled o = true ->
     snd (check_rugcheck_status token_address s) = Ok rugcheck_status ->
     blacklisted_devs (config s') =
       if py_in dev (blacklisted_devs (config s)) then blacklisted_devs (config s)
       else blacklisted_devs (config s) ++ [dev]).
Proof.
  intros Ho Ha. cbv zeta.
  pose proof (extract_observation_fields _ _ Ho) as (_ & _ & Hd & Hb).
  unfold value_at in Hd. rewrite Ha in Hd. cbn [rbind] in Hd. injection Hd as Hd.
  rewrite Hd. split; [reflexivity|].
  pose proof (save_token_data_outcome token_data token_address s) as Hout.
  cbv zeta in Hout.
  split; [|split].
  - intros Hin. destruct Hout as [E|(o' & status & Ho' & Hst & _)]; [exact E|].
    rewrite Ho in Ho'. injection Ho' as <-.
    destruct Hst as (_ & _ & _ & _ & Hn & _). congruence.
  - intros r Hr. destruct Hout as [E|(o' & status & Ho' & Hst & _ & Ht)].
    + rewrite E in Hr. symmetry in Hr. apply app_one_neq in Hr. contradiction.
    + rewrite Ho in Ho'. injection Ho' as <-.
      rewrite Ht in Hr. apply app_inv_head in Hr. injection Hr as <-.
      destruct Hst as (_ & _ & _ & _ & Hn & _).
      cbn [make_row row_dev_address]. split; [reflexivity | exact Hn].
  - intros status Hf Hs. rewrite Hf in Hb.
    destruct (bundled_pass token_data token_address s Hb) as [_ Hrest].
    destruct (Hrest o status Ho Hs) as (_ & Hc & _).
    rewrite Hc, blacklist_add_devs. reflexivity.
Qed.

(** ** More on the pipeline pass *)

Lemma execute_trade_run (token_address action : string) (s : state) :
  let request :=
    POST "https://bonkbot.com/api/trade" BONKBOT_API_KEY
      (JDict [("token_address", JStr token_address); ("action", JStr action)]) in
  execute_trade token_address action s =
  ({| config := config s; config_json := config_json s; tokens := tokens s;
      st := st s ++ [if status_code (network (sent s) request) =? 200
                     then StTradeExecuted action token_address
                     else StTradeFailed action token_address];
      sent := sent s ++ [request] |}, Ok tt).
Proof.
  unfold execute_trade, bind, http, st_report. cbn.
  destruct (status_code _ =? 200); reflexivity.
Qed.

Lemma check_rugcheck_status_sent (token_address : string) (s : state) :
  sent (fst (check_rugcheck_status token_address s))
  = sent s ++ [audit_request token_address s].
Proof.
  rewrite check_rugcheck_status_run. cbv zeta. unfold audit_request.
  destruct (status_code _ =? 200); reflexivity.
Qed.

(** A status other than "Unknown" comes from a 200 response, which leaves
    the dashboard alone. *)
Lemma check_rugcheck_status_good (token_address : string) (s : state) :
  snd (check_rugcheck_status token_address s) = Ok (JStr "Good") ->
  status_code (network (sent s) (audit_request token_address s)) = 200 /\
  st (fst (check_rugcheck_status token_address s)) = st s.
Proof.
  rewrite check_rugcheck_status_run. cbv zeta. unfold audit_request.
  destruct (status_code _ =? 200) eqn:E; cbn [fst snd st].
  - intros _. apply Z.eqb_eq in E. auto.
  - discriminate.
Qed.

Lemma extract_observation_all (token_data : json) (o : observation) :
  extract_observation token_data = Ok o ->
  value_at ["pair"; "baseToken"; "symbol"] (JStr "") token_data = Ok (obs_symbol o) /\
  value_at ["pair"; "baseToken"; "name"] (JStr "") token_data = Ok (obs_name o) /\
  number_at ["pair"; "priceUsd"] token_data = Ok (obs_price o) /\
  number_at ["pair"; "liquidity"; "usd"] token_data = Ok (obs_liquidity o) /\
  number_at ["pair"; "fdv"] token_data = Ok (obs_market_cap o) /\
  value_at ["pair"; "dexId"] JNull token_data = Ok (obs_dex_id o) /\
  value_at ["pair"; "baseToken"; "address"] (JStr "") token_data = Ok (obs_dev_address o) /\
  is_bundled_supply token_data = Ok (obs_bundled o).
Proof.
  unfold extract_observation.
  destruct (value_at ["pair"; "baseToken"; "symbol"] _ _); cbn [rbind]; [|discriminate].
  destruct (value_at ["pair"; "baseToken"; "name"] _ _); cbn [rbind]; [|discriminate].
  destruct (number_at ["pair"; "priceUsd"] _); cbn [rbind]; [|discriminate].
  destruct (number_at ["pair"; "liquidity"; "usd"] _); cbn [rbind]; [|discriminate].
  destruct (number_at ["pair"; "fdv"] _); cbn [rbind]; [|discriminate].
  destruct (value_at ["pair"; "dexId"] _ _); cbn [rbind]; [|discriminate].
  destruct (value_at ["pair"; "baseToken"; "address"] _ _); cbn [rbind]; [|discriminate].
  destruct (is_bundled_supply _); cbn [rbind]; [|discriminate].
  intros H. injection H as <-. cbn. auto 10.
Qed.

Lemma stores_status (o : observation) (token_address : string) (s : state)
    (status status' : json) :
  stores o token_address s status -> stores o token_address s status' ->
  status' = status.
Proof.
  intros (H & _) (H' & _). rewrite H in H'. injection H' as <-. reflexivity.
Qed.

(** X1. [save_token_data] adds a row only when the extraction succeeds,
    the audit returned "Good", the supply is not bundled, neither address
    is blacklisted and SQLite takes the parameters; the table then holds
    what it held, followed by the one row built from the observation. *)
Theorem save_token_data_inserts_only_if (token_data : json) (token_address : string)
    (s : state) :
  let s' := fst (save_token_data token_data token_address s) in
  tokens s' <> tokens s ->
  exists o status,
    extract_observation token_data = Ok o /\
    stores o token_address s status /\
    tokens s' = tokens s ++ [make_row o status].
Proof.
  cbv zeta. intros Hne.
  destruct (save_token_data_outcome token_data token_address s)
    as [H|(o & status & Ho & Hst & _ & Ht)]; [contradiction|].
  exists o, status. auto.
Qed.

(** The requests of [save_token_data] from the audit call on: the audit GET
    alone when no row is added, followed by the buy order when one is. *)
Lemma decide_and_store_sent (o : observation) (token_address : string) (s : state) :
  let s' := fst (decide_and_store o token_address s) in
  (tokens s' = tokens s -> sent s' = sent s ++ [audit_request token_address s]) /\
  (tokens s' <> tokens s ->
     sent s' = sent s ++ [audit_request token_address s; buy_request token_address]).
Proof.
  cbv zeta.
  pose proof (check_rugcheck_status_sent token_address s) as Hs.
  pose proof (check_rugcheck_status_frame token_address s) as F. cbv zeta in F.
  destruct F as (_ & _ & Ft).
  rewrite decide_and_store_run. cbv zeta.
  destruct (snd (check_rugcheck_status token_address s)) as [status|e].
  2:{ cbn [fst]. split; [auto | intros H; contradiction]. }
  destruct (negb _ && py_eq_str status "Good").
  - destruct (bind_parameters (make_row o status)) as [[]|e] eqn:Hb.
    + rewrite execute_trade_run. cbv zeta. unfold insert_token. rewrite Hb.
      cbn [fst tokens sent].
      assert (Hcase : obs_bundled o = false \/ obs_bundled o = true)
        by (destruct (obs_bundled o); auto).
      destruct Hcase as [Hf|Hf]; rewrite Hf.
      * rewrite Ft, Hs. split.
        -- intros H. apply app_one_neq in H. contradiction.
        -- intros _. rewrite <- app_assoc. reflexivity.
      * rewrite add_to_blacklist_run. cbn [fst tokens sent]. rewrite Ft, Hs. split.
        -- intros H. apply app_one_neq in H. contradiction.
        -- intros _. rewrite <- app_assoc. reflexivity.
    + destruct (obs_bundled o).
      * rewrite add_to_blacklist_run. cbn [fst tokens sent]. rewrite Ft, Hs.
        split; [auto | intros H; contradiction H; reflexivity].
      * cbn [fst]. rewrite Ft, Hs.
        split; [auto | intros H; contradiction H; reflexivity].
  - destruct (obs_bundled o).
    + rewrite add_to_blacklist_run. cbn [fst tokens sent]. rewrite Ft, Hs.
      split; [auto | intros H; contradiction H; reflexivity].
    + cbn [fst]. rewrite Ft, Hs.
      split; [auto | intros H; contradiction H; reflexivity].
Qed.

(** X2. The requests of a pass.  When the extraction raises, none is sent.
    When the extraction succeeds and the conditions for storing are not
    met, the audit GET is sent and nothing else: no buy order goes out.
    When a row is stored, the pass has sent the audit GET and then one POST
    of the buy order, and nothing else. *)
Theorem requests_of_a_pass (token_data : json) (token_address : string) (s : state) :
  let s' := fst (save_token_data token_data token_address s) in
  (forall e, extract_observation token_data = Raise e -> sent s' = sent s) /\
  (forall o,
      extract_observation token_data = Ok o ->
      ~ (exists status, stores o token_address s status) ->
      sent s' = sent s ++ [audit_request token_address s]) /\
  (tokens s' <> tokens s ->
     sent s' = sent s ++ [audit_request token_address s; buy_request token_address]).
Proof.
  cbv zeta. rewrite save_token_data_run.
  destruct (extract_observation token_data) as [o|e].
  - destruct (decide_and_store_sent o token_address s) as [Hsame Hdiff].
    split; [intros e H; discriminate|]. split; [|exact Hdiff].
    intros o' Ho' Hn. injection Ho' as <-.
    destruct (decide_and_store_outcome o token_address s) as [[Ht _]|(status & Hst & _)].
    + apply Hsame. exact Ht.
    + exfalso. apply Hn. exists status. exact Hst.
  - cbn [fst]. split; [reflexivity|]. split; [intros o Ho; discriminate|].
    intros H. contradiction H. reflexivity.
Qed.

Lemma not_readable_raises (path : list string) (v : json) :
  readable_number path v = false -> exists e, number_at path v = Raise e.
Proof.
  intros H. destruct (number_at path v) as [f|e] eqn:E; [|eauto].
  assert (X : readable_number path v = true) by (apply readable_number_at; eauto).
  congruence.
Qed.

(** X3. When the price, the liquidity or the valuation of the response is
    present and not a number, [save_token_data] raises before it does
    anything: no request is sent, no blacklist is changed, no row is
    stored. *)
Theorem unreadable_number_stops_pass (token_data : json) (token_address : string)
    (s : state) :
  readable_number ["pair"; "priceUsd"] token_data = false \/
  readable_number ["pair"; "liquidity"; "usd"] token_data = false \/
  readable_number ["pair"; "fdv"] token_data = false ->
  exists e, save_token_data token_data token_address s = (s, Raise e).
Proof.
  intros H. rewrite save_token_data_run.
  destruct (extract_observation token_data) as [o|e] eqn:Ho; [|eauto].
  apply extract_observation_all in Ho.
  destruct Ho as (_ & _ & Hp & Hl & Hm & _).
  destruct H as [H|[H|H]]; apply not_readable_raises in H; destruct H as [e H];
    congruence.
Qed.

(** X4. Only a bundled supply makes a pass write: when
    [is_bundled_supply] does not return True, the configuration in memory
    and the file [config.json] are after the pass what they were before. *)
Theorem config_untouched_unless_bundled (token_data : json) (token_address : string)
    (s : state) :
  is_bundled_supply token_data <> Ok true ->
  let s' := fst (save_token_data token_data token_address s) in
  config s' = config s /\ config_json s' = config_json s.
Proof.
  intros Hb. cbv zeta. rewrite save_token_data_run.
  destruct (extract_observation token_data) as [o|e] eqn:Ho; [|auto].
  apply extract_observation_all in Ho.
  destruct Ho as (_ & _ & _ & _ & _ & _ & _ & Hf).
  assert (Hfalse : obs_bundled o = false).
  { destruct (obs_bundled o); [congruence | reflexivity]. }
  pose proof (check_rugcheck_status_frame token_address s) as F. cbv zeta in F.
  destruct F as (Fc & Fj & _).
  rewrite decide_and_store_run. cbv zeta. rewrite Hfalse.
  destruct (snd (check_rugcheck_status token_address s)) as [status|e]; [|auto].
  destruct (negb _ && py_eq_str status "Good"); [|auto].
  destruct (bind_parameters (make_row o status)) as [[]|e] eqn:Hbind; [|auto].
  rewrite execute_trade_run. cbv zeta. unfold insert_token. rewrite Hbind.
  cbn [fst config config_json]. auto.
Qed.

(** X5. The audit comes before the blacklist: when the audit endpoint
    answers 200 with a body that is not JSON, or JSON that is not an
    object, the pass raises there, and even a bundled supply is not
    blacklisted; nothing is stored. *)
Theorem undecodable_audit_stops_pass (token_data : json) (token_address : string)
    (s : state) (o : observation) :
  extract_observation token_data = Ok o ->
  let response := network (sent s) (audit_request token_address s) in
  let s' := fst (save_token_data token_data token_address s) in
  status_code response = 200 ->
  (body response = None ->
   snd (save_token_data token_data token_address s) = Raise JSONDecodeError) /\
  (forall v, body response = Some v -> (forall d, v <> JDict d) ->
   snd (save_token_data token_data token_address s) = Raise AttributeError) /\
  ((body response = None \/
    exists v, body response = Some v /\ forall d, v <> JDict d) ->
   config s' = config s /\ config_json s' = config_json s /\ tokens s' = tokens s).
Proof.
  intros Ho. cbv zeta. intros H200. rewrite save_token_data_run, Ho.
  rewrite decide_and_store_run. cbv zeta.
  pose proof (check_rugcheck_status_frame token_address s) as F. cbv zeta in F.
  rewrite check_rugcheck_status_run in *. cbv zeta in *. unfold audit_request in H200.
  rewrite H200 in *. cbn [Z.eqb Pos.eqb fst snd] in *.
  destruct F as (Fc & Fj & Ft).
  unfold audit_request, response_json.
  split; [|split].
  - intros Hb. rewrite Hb. reflexivity.
  - intros v Hb Hv. rewrite Hb. cbn [rbind].
    destruct v; try reflexivity. exfalso. apply (Hv d). reflexivity.
  - intros [Hb|(v & Hb & Hv)]; rewrite Hb; cbn [rbind].
    + cbn [fst config config_json tokens]. auto.
    + destruct v; cbn [py_get fst config config_json tokens]; auto.
      exfalso. apply (Hv d). reflexivity.
Qed.

(** X6. A buy order that the trade endpoint answers with a failure does
    not take the row back.  Whenever a pass meets the conditions for
    storing, then on an answer with a status code other than 200 it returns
    normally with the row in the table and the dashboard told "failed", and
    on an answer with status code 200 the same with the dashboard told
    "executed". *)
Theorem failed_trade_keeps_row (token_data : json) (token_address : string)
    (s : state) (o : observation) (status : json) :
  extract_observation token_data = Ok o ->
  stores o token_address s status ->
  let s' := fst (save_token_data token_data token_address s) in
  let answer :=
    network (sent s ++ [audit_request token_address s]) (buy_request token_address) in
  (status_code answer <> 200 ->
     snd (save_token_data token_data token_address s) = Ok tt /\
     tokens s' = tokens s ++ [make_row o status] /\
     st s' = st s ++ [StTradeFailed "buy" token_address]) /\
  (status_code answer = 200 ->
     snd (save_token_data token_data token_address s) = Ok tt /\
     tokens s' = tokens s ++ [make_row o status] /\
     st s' = st s ++ [StTradeExecuted "buy" token_address]).
Proof.
  intros Ho Hst. cbv zeta. rewrite save_token_data_run, Ho.
  destruct Hst as (Ha & Hg & Hf & Hc & Hd & Hbind). subst status.
  pose proof (check_rugcheck_status_frame token_address s) as F. cbv zeta in F.
  destruct F as (Fc & _ & Ft).
  pose proof (check_rugcheck_status_sent token_address s) as Hs.
  pose proof (check_rugcheck_status_good token_address s Ha) as (_ & Hdash).
  rewrite decide_and_store_run. cbv zeta. rewrite Ha, Hf, Fc, Hc, Hd.
  cbn [orb negb andb py_eq_str]. rewrite String.eqb_refl, Hbind.
  rewrite execute_trade_run. cbv zeta. unfold insert_token. rewrite Hbind.
  cbn [fst snd tokens st sent]. rewrite Ft, Hs, Hdash. unfold buy_request.
  split; intros H.
  - apply Z.eqb_neq in H. rewrite H. auto.
  - rewrite H. auto.
Qed.

(** X7. When SQLite refuses a parameter of the INSERT (a symbol, name or
    address that is a list or an object, or an integer beyond 64 bits),
    the pass raises what SQLite raises: no row is stored and no buy order
    is posted, although the gate was open. *)
Theorem refused_parameter_stops_pass (token_data : json) (token_address : string)
    (s : state) (o : observation) (e : exn) :
  extract_observation token_data = Ok o ->
  snd (check_rugcheck_status token_address s) = Ok (JStr "Good") ->
  obs_bundled o = false ->
  py_in (JStr token_address) (blacklisted_coins (config s)) = false ->
  py_in (obs_dev_address o) (blacklisted_devs (config s)) = false ->
  bind_parameters (make_row o (JStr "Good")) = Raise e ->
  let s' := fst (save_token_data token_data token_address s) in
  snd (save_token_data token_data token_address s) = Raise e /\
  tokens s' = tokens s /\
  sent s' = sent s ++ [audit_request token_address s].
Proof.
  intros Ho Ha Hf Hc Hd Hbind. cbv zeta. rewrite save_token_data_run, Ho.
  pose proof (check_rugcheck_status_frame token_address s) as F. cbv zeta in F.
  destruct F as (Fc & _ & Ft).
  pose proof (check_rugcheck_status_sent token_address s) as Hs.
  rewrite decide_and_store_run. cbv zeta. rewrite Ha, Hf, Fc, Hc, Hd.
  cbn [orb negb andb py_eq_str]. rewrite String.eqb_refl, Hbind.
  cbn [fst snd]. auto.
Qed.

(** X8. Every row a pass inserts has the audit status "Good", the flag
    [is_bundled_supply] False and the flag [is_fake_volume] 0: no row of a
    bundled supply ever reaches the table. *)
Theorem inserted_row_invariant (token_data : json) (token_address : string)
    (s : state) (r : row) :
  tokens (fst (save_token_data token_data token_address s)) = tokens s ++ [r] ->
  row_invariant r.
Proof.
  intros H.
  destruct (save_token_data_outcome token_data token_address s)
    as [E|(o & status & Ho & Hst & _ & Ht)].
  - rewrite E in H. symmetry in H. apply app_one_neq in H. contradiction.
  - rewrite Ht in H. apply app_inv_head in H. injection H as <-.
    destruct Hst as (_ & Hg & Hf & _). unfold row_invariant. cbn. auto.
Qed.

(** X9. A token address on [blacklisted_coins], or a developer address on
    [blacklisted_devs], is never stored, whatever the response and the
    audit say. *)
Theorem blacklisted_never_stored (token_data : json) (token_address : string)
    (s : state) :
  let s' := fst (save_token_data token_data token_address s) in
  (py_in (JStr token_address) (blacklisted_coins (config s)) = true ->
   tokens s' = tokens s) /\
  (forall o,
      extract_observation token_data = Ok o ->
      py_in (obs_dev_address o) (blacklisted_devs (config s)) = true ->
      tokens s' = tokens s).
Proof.
  cbv zeta.
  destruct (save_token_data_outcome token_data token_address s)
    as [E|(o & status & Ho & Hst & _ & _)]; [auto|].
  destruct Hst as (_ & _ & _ & Hc & Hd & _). split.
  - intros H. congruence.
  - intros o' Ho' H. rewrite Ho in Ho'. injection Ho' as <-. congruence.
Qed.

(** X10. In every inserted row, [is_cex_listed] is 1 exactly when the
    pair's [dexId] is the string "cex", [is_pumped] is 1 exactly when the
    stored price is above 1000, and both are 0 otherwise; the symbol and
    the name are the [baseToken] fields, empty strings when absent. *)
Theorem inserted_row_flags (token_data : json) (token_address : string)
    (s : state) (r : row) :
  tokens (fst (save_token_data token_data token_address s)) = tokens s ++ [r] ->
  exists dex_id,
    value_at ["pair"; "dexId"] JNull token_data = Ok dex_id /\
    row_is_cex_listed r = (if py_eq_str dex_id "cex" then 1 else 0) /\
    (row_is_cex_listed r = 1 <-> dex_id = JStr "cex") /\
    row_is_pumped r = (if py_gt (PFloat (row_price r)) (PInt 1000) then 1 else 0) /\
    value_at ["pair"; "baseToken"; "symbol"] (JStr "") token_data = Ok (row_symbol r) /\
    value_at ["pair"; "baseToken"; "name"] (JStr "") token_data = Ok (row_name r) /\
    number_at ["pair"; "fdv"] token_data = Ok (row_market_cap r).
Proof.
  intros H.
  destruct (save_token_data_outcome token_data token_address s)
    as [E|(o & status & Ho & _ & _ & Ht)].
  - rewrite E in H. symmetry in H. apply app_one_neq in H. contradiction.
  - rewrite Ht in H. apply app_inv_head in H. injection H as <-.
    apply extract_observation_all in Ho.
    destruct Ho as (Hsym & Hname & _ & _ & Hm & Hdex & _).
    exists (obs_dex_id o). cbn [make_row row_is_cex_listed row_is_pumped row_price
                               row_symbol row_name row_market_cap].
    repeat split; auto.
    + destruct (py_eq_str (obs_dex_id o) "cex") eqn:E; [|discriminate].
      intros _. apply py_eq_str_true. exact E.
    + intros E. apply py_eq_str_true in E. rewrite E. reflexivity.
Qed.

(** ** More on the blacklist store *)

Lemma config_grows_refl (c : config_t) : config_grows c c.
Proof.
  unfold config_grows. repeat split; try reflexivity;
    exists []; rewrite app_nil_r; reflexivity.
Qed.

Lemma config_grows_trans (c1 c2 c3 : config_t) :
  config_grows c1 c2 -> config_grows c2 c3 -> config_grows c1 c3.
Proof.
  intros ((m1 & H1) & (n1 & G1) & A1 & B1 & C1 & D1 & E1)
         ((m2 & H2) & (n2 & G2) & A2 & B2 & C2 & D2 & E2).
  unfold config_grows. repeat split; try congruence.
  - exists (m1 ++ m2). rewrite H2, H1, app_assoc. reflexivity.
  - exists (n1 ++ n2). rewrite G2, G1, app_assoc. reflexivity.
Qed.

Lemma blacklist_add_grows (t d : json) (c : config_t) :
  config_grows c (blacklist_add t d c).
Proof.
  unfold config_grows. rewrite blacklist_add_coins, blacklist_add_devs.
  split; [|split].
  - destruct (py_in t (blacklisted_coins c)); [exists [] | exists [t]];
      rewrite ?app_nil_r; reflexivity.
  - destruct (py_in d (blacklisted_devs c)); [exists [] | exists [d]];
      rewrite ?app_nil_r; reflexivity.
  - unfold blacklist_add, py_in.
    destruct (existsb (py_same t) (blacklisted_coins c)); cbn;
      destruct (existsb (py_same d) (blacklisted_devs c)); cbn;
      repeat split; reflexivity.
Qed.

Lemma config_grows_keeps (c c' : config_t) (x y : json) :
  config_grows c c' ->
  py_in x (blacklisted_coins c) || py_in y (blacklisted_devs c) = true ->
  py_in x (blacklisted_coins c') || py_in y (blacklisted_devs c') = true.
Proof.
  intros ((m & Hm) & (n & Hn) & _) H. rewrite Hm, Hn, !py_in_app.
  apply orb_true_iff in H. destruct H as [H|H]; rewrite H;
    rewrite ?orb_true_r; reflexivity.
Qed.

(** X11. After [add_to_blacklist] of a token and a developer address,
    [is_blacklisted] is True for that token address with any developer
    address, and for that developer address with any token address; what
    was blacklisted before still is; the lists have only grown at their
    end, the rest of the configuration is unchanged, the file holds what
    memory holds, and the table is untouched. *)
Theorem add_to_blacklist_then_lookup (token_address dev_address : json) (s : state) :
  let s' := fst (add_to_blacklist token_address dev_address s) in
  snd (add_to_blacklist token_address dev_address s) = Ok tt /\
  (forall x, snd (is_blacklisted token_address x s') = Ok true) /\
  (forall x, snd (is_blacklisted x dev_address s') = Ok true) /\
  (forall x y, snd (is_blacklisted x y s) = Ok true ->
               snd (is_blacklisted x y s') = Ok true) /\
  config_grows (config s) (config s') /\
  config_json s' = config s' /\
  tokens s' = tokens s.
Proof.
  cbv zeta. rewrite add_to_blacklist_run. cbn [fst snd config config_json tokens].
  split; [reflexivity|].
  split; [|split; [|split; [|split; [|split]]]]; try reflexivity.
  - intros x. rewrite is_blacklisted_run. cbn [snd config].
    rewrite blacklist_add_has_coin. reflexivity.
  - intros x. rewrite is_blacklisted_run. cbn [snd config].
    rewrite blacklist_add_has_dev, orb_true_r. reflexivity.
  - intros x y. rewrite !is_blacklisted_run. cbn [snd config]. intros H.
    injection H as H. f_equal.
    apply (config_grows_keeps _ _ x y (blacklist_add_grows _ _ _) H).
  - apply blacklist_add_grows.
Qed.

(** ** More on the bundled-supply check *)

Lemma bundled_loop_iff (total_supply : float) (holders : list json) :
  Forall (fun h => exists b, holder_balance h = Ok b) holders ->
  (bundled_loop total_supply holders = Ok true <->
     Exists (above_half total_supply) holders) /\
  (bundled_loop total_supply holders = Ok false <->
     Forall (below_half total_supply) holders).
Proof.
  intros Hall. induction Hall as [|h hs [b Hb] _ [IHt IHf]].
  - simpl. split; split; try discriminate; auto.
    intros H. inversion H.
  - rewrite bundled_loop_cons, Hb. cbn [rbind].
    destruct (py_gt (PFloat b) (PFloat (float_mul float_half total_supply))) eqn:G.
    + split; split; try discriminate.
      * intros _. left. exists b. auto.
      * reflexivity.
      * intros H. inversion H as [|? ? (b' & Hb' & G') _]; subst.
        rewrite Hb in Hb'. injection Hb' as <-. congruence.
    + split; split.
      * intros H. right. apply IHt. exact H.
      * intros H. inversion H as [? ? (b' & Hb' & G')|]; subst.
        -- rewrite Hb in Hb'. injection Hb' as <-. congruence.
        -- apply IHt. assumption.
      * intros H. constructor; [exists b; auto | apply IHf; exact H].
      * intros H. inversion H; subst. apply IHf. assumption.
Qed.

(** X12. On a holder list whose balances all read as numbers,
    [is_bundled_supply] returns True exactly when some holder is above
    [0.5 * total_supply], and False exactly when every holder is at or
    below it. *)
Theorem is_bundled_supply_iff (token_data : json) (o : option json)
    (holders : list json) (total_supply : float) :
  field ["pair"; "holders"] token_data = Ok o ->
  value_or (JList []) o = JList holders ->
  number_at ["pair"; "totalSupply"] token_data = Ok total_supply ->
  Forall (fun h => exists b, holder_balance h = Ok b) holders ->
  (is_bundled_supply token_data = Ok true <->
     Exists (above_half total_supply) holders) /\
  (is_bundled_supply token_data = Ok false <->
     Forall (below_half total_supply) holders).
Proof.
  intros Hf Hv Hts Hall. rewrite is_bundled_supply_eq, Hf. cbn [rbind]. rewrite Hv.
  destruct holders as [|h hs].
  - cbn [py_truthy]. split; split; try discriminate; auto.
    intros H. inversion H.
  - cbn [py_truthy]. rewrite Hts. cbn [rbind py_iter].
    apply bundled_loop_iff. exact Hall.
Qed.

Lemma bundled_loop_raises (total_supply : float) (pre : list json) (holder : json)
    (post : list json) (e : exn) :
  Forall (below_half total_supply) pre ->
  holder_balance holder = Raise e ->
  bundled_loop total_supply (pre ++ holder :: post) = Raise e.
Proof.
  intros Hpre Hh. induction Hpre as [|h pre (b & Hb & G) _ IH].
  - simpl app. rewrite bundled_loop_cons, Hh. reflexivity.
  - change ((h :: pre) ++ holder :: post) with (h :: (pre ++ holder :: post)).
    rewrite bundled_loop_cons, Hb. cbn [rbind]. rewrite G. exact IH.
Qed.

(** X13. [is_bundled_supply] raises at the first holder whose balance is
    not a number when no holder before it was above half the supply,
    whatever the holders after it hold; and on a holder list that is not
    empty it raises on a total supply that is not a number before it looks
    at any holder. *)
Theorem is_bundled_supply_raises (token_data : json) :
  (forall pre holder post total_supply e,
      field ["pair"; "holders"] token_data = Ok (Some (JList (pre ++ holder :: post))) ->
      number_at ["pair"; "totalSupply"] token_data = Ok total_supply ->
      Forall (below_half total_supply) pre ->
      holder_balance holder = Raise e ->
      is_bundled_supply token_data = Raise e) /\
  (forall o e,
      field ["pair"; "holders"] token_data = Ok o ->
      py_truthy (value_or (JList []) o) = true ->
      number_at ["pair"; "totalSupply"] token_data = Raise e ->
      is_bundled_supply token_data = Raise e).
Proof.
  split.
  - intros pre holder post ts e Hf Hts Hpre Hh.
    rewrite is_bundled_supply_eq, Hf, Hts. cbn [rbind value_or py_truthy py_iter].
    assert (T : match pre ++ holder :: post with [] => false | _ :: _ => true end = true)
      by (destruct pre; reflexivity).
    rewrite T. apply bundled_loop_raises; assumption.
  - intros o e Hf Ht Hts. rewrite is_bundled_supply_eq, Hf. cbn [rbind].
    rewrite Ht, Hts. reflexivity.
Qed.

Lemma py_gt_nan_right (b : float) : py_gt (PFloat b) (PFloat S754_nan) = false.
Proof. destruct b; reflexivity. Qed.

(** X14. A total supply that is NaN is never bundled: on a holder list
    whose balances read as numbers, [is_bundled_supply] returns False. *)
Theorem nan_supply_never_bundled (token_data : json) (o : option json)
    (holders : list json) :
  field ["pair"; "holders"] token_data = Ok o ->
  value_or (JList []) o = JList holders ->
  number_at ["pair"; "totalSupply"] token_data = Ok S754_nan ->
  Forall (fun h => exists b, holder_balance h = Ok b) holders ->
  is_bundled_supply token_data = Ok false.
Proof.
  intros Hf Hv Hts Hall.
  assert (B : Forall (below_half S754_nan) holders).
  { clear Hf Hv. induction Hall as [|h hs [b Hb] _ IH]; constructor; [|exact IH].
    exists b. split; [exact Hb|]. apply py_gt_nan_right. }
  rewrite is_bundled_supply_eq, Hf. cbn [rbind]. rewrite Hv.
  destruct holders as [|h hs]; [reflexivity|].
  cbn [py_truthy]. rewrite Hts. cbn [rbind py_iter].
  apply (proj2 (bundled_loop_iff S754_nan (h :: hs) Hall)). exact B.
Qed.

(** ** More on the filter engine *)

Lemma py_ge_nan_left (n : pynum) : py_ge (PFloat S754_nan) n = false.
Proof. destruct n; reflexivity. Qed.

Lemma py_ge_nan_right (f : float) : py_ge (PFloat f) (PFloat S754_nan) = false.
Proof. destruct f; reflexivity. Qed.

(** X15. On a pair record whose liquidity and valuation both read as
    numbers, NaN never passes the filter: when one of the two is NaN, or a
    configured threshold is NaN, [passes_filters] returns False. *)
Theorem nan_never_passes (c : config_t) (token : json) (liq fdv : float) :
  number_at ["liquidity"; "usd"] token = Ok liq ->
  number_at ["fdv"] token = Ok fdv ->
  liq = S754_nan \/ fdv = S754_nan \/
  min_liquidity (filters c) = PFloat S754_nan \/
  min_market_cap (filters c) = PFloat S754_nan ->
  passes_filters c token = Ok false.
Proof.
  intros Hl Hf H. rewrite passes_filters_eq, Hl, Hf. cbn [rbind].
  destruct H as [H|[H|[H|H]]].
  - subst liq. rewrite py_ge_nan_left. reflexivity.
  - subst fdv. rewrite py_ge_nan_left, andb_false_r. reflexivity.
  - rewrite H, py_ge_nan_right. reflexivity.
  - rewrite H, py_ge_nan_right, andb_false_r. reflexivity.
Qed.

(** ** The market data client and the loop of [run_bot] *)

Lemma fetch_token_data_run (token_address : string) (s : state) :
  let url := (DEXSCREENER_API_URL ++ token_address)%string in
  let response := network (sent s) (GET url) in
  fetch_token_data token_address s =
  if status_code response =? 200 then
    ({| config := config s; config_json := config_json s; tokens := tokens s;
        st := st s; sent := sent s ++ [GET url] |},
     response_json response)
  else
    ({| config := config s; config_json := config_json s; tokens := tokens s;
        st := st s ++ [StFetchFailed token_address];
        sent := sent s ++ [GET url] |},
     Ok JNull).
Proof.
  unfold fetch_token_data, bind, http, lift, st_report, ret. cbn.
  destruct (status_code _ =? 200); reflexivity.
Qed.

Lemma fetch_token_data_frame (token_address : string) (s : state) :
  let s0 := fst (fetch_token_data token_address s) in
  config s0 = config s /\ config_json s0 = config_json s /\ tokens s0 = tokens s /\
  sent s0 = sent s ++ [GET (DEXSCREENER_API_URL ++ token_address)%string].
Proof.
  cbv zeta. rewrite fetch_token_data_run. cbv zeta.
  destruct (status_code _ =? 200); cbn; auto.
Qed.

(** X16. [fetch_token_data] sends one GET for the address and leaves the
    configuration, the file and the table alone.  On a 200 response it
    returns the decoded body, and raises if the body is not JSON; on any
    other status code it returns None and tells the dashboard. *)
Theorem fetch_token_data_result (token_address : string) (s : state) :
  let url := (DEXSCREENER_API_URL ++ token_address)%string in
  let response := network (sent s) (GET url) in
  let s0 := fst (fetch_token_data token_address s) in
  sent s0 = sent s ++ [GET url] /\
  config s0 = config s /\ config_json s0 = config_json s /\ tokens s0 = tokens s /\
  (forall v, status_code response = 200 -> body response = Some v ->
     snd (fetch_token_data token_address s) = Ok v /\ st s0 = st s) /\
  (status_code response = 200 -> body response = None ->
     snd (fetch_token_data token_address s) = Raise JSONDecodeError) /\
  (status_code response <> 200 ->
     snd (fetch_token_data token_address s) = Ok JNull /\
     st s0 = st s ++ [StFetchFailed token_address]).
Proof.
  cbv zeta.
  pose proof (fetch_token_data_frame token_address s) as F. cbv zeta in F.
  destruct F as (Fc & Fj & Ft & Fs).
  split; [exact Fs|]. split; [exact Fc|]. split; [exact Fj|]. split; [exact Ft|].
  rewrite fetch_token_data_run. cbv zeta. unfold response_json.
  split; [|split].
  - intros v H200 Hb. rewrite H200, Hb. cbn. auto.
  - intros H200 Hb. rewrite H200, Hb. reflexivity.
  - intros H. apply Z.eqb_neq in H. rewrite H. cbn. auto.
Qed.

Lemma run_bot_step_run (address : string) (s : state) :
  let s0 := fst (fetch_token_data address s) in
  run_bot_step address s =
  match snd (fetch_token_data address s) with
  | Raise e => (s0, Raise e)
  | Ok token_data =>
      if py_truthy token_data then
        match py_get token_data "pair" (JDict []) with
        | Raise e => (s0, Raise e)
        | Ok token =>
            match passes_filters (config s0) token with
            | Raise e => (s0, Raise e)
            | Ok true => save_token_data token_data address s0
            | Ok false => (s0, Ok tt)
            end
        end
      else (s0, Ok tt)
  end.
Proof.
  cbv zeta. unfold run_bot_step. unfold bind at 1.
  destruct (fetch_token_data address s) as [s0 [td|e]]; cbn [fst snd]; [|reflexivity].
  destruct (py_truthy td); [|reflexivity].
  rewrite bind_lift.
  destruct (py_get td "pair" (JDict [])) as [pair|e]; [|reflexivity].
  unfold bind at 1. unfold get_config at 1. rewrite bind_lift.
  destruct (passes_filters (config s0) pair) as [[|]|e]; reflexivity.
Qed.

(** X17. An address is skipped, after its one GET and with nothing else
    sent, stored or blacklisted, when the market data endpoint does not
    answer 200, when it answers with an empty or null body, and when the
    pair does not pass the filters. *)
Theorem run_bot_step_skips (address : string) (s : state) :
  let url := (DEXSCREENER_API_URL ++ address)%string in
  let response := network (sent s) (GET url) in
  let s' := fst (run_bot_step address s) in
  (status_code response <> 200 \/
   (exists token_data,
       status_code response = 200 /\ body response = Some token_data /\
       (py_truthy token_data = false \/
        exists pair, py_get token_data "pair" (JDict []) = Ok pair /\
                     passes_filters (config s) pair = Ok false))) ->
  snd (run_bot_step address s) = Ok tt /\
  sent s' = sent s ++ [GET url] /\
  config s' = config s /\ config_json s' = config_json s /\ tokens s' = tokens s.
Proof.
  cbv zeta. intros H.
  pose proof (fetch_token_data_frame address s) as F. cbv zeta in F.
  destruct F as (Fc & Fj & Ft & Fs).
  rewrite run_bot_step_run. cbv zeta. rewrite Fc.
  rewrite fetch_token_data_run in *. cbv zeta in *. unfold response_json.
  destruct H as [H|(td & H200 & Hb & H)].
  - apply Z.eqb_neq in H. rewrite H in *. cbn [fst snd py_truthy] in *. auto.
  - rewrite H200 in *. cbn [Z.eqb Pos.eqb fst snd] in *. rewrite Hb.
    destruct H as [H|(pair & Hp & Hpass)].
    + rewrite H. cbn [fst snd]. auto.
    + destruct (py_truthy td); [|cbn [fst snd]; auto].
      rewrite Hp, Hpass. cbn [fst snd]. auto.
Qed.

Lemma number_at_pair (token_data pair : json) (k : string) (path : list string) :
  py_get token_data "pair" (JDict []) = Ok pair ->
  number_at ("pair" :: k :: path) token_data = number_at (k :: path) pair.
Proof.
  intros H. unfold number_at. rewrite (field_pair _ _ _ _ H). reflexivity.
Qed.

Lemma positive_threshold_excludes_zero (f : float) (n : pynum) :
  num_positive n = true -> py_ge (PFloat f) n = true -> float_is_zero f = false.
Proof.
  destruct f as [sg| | |]; try reflexivity.
  destruct n as [z|g]; unfold py_ge; cbn [num_positive py_compare compare_float_int].
  - intros Hz. apply Z.ltb_lt in Hz.
    destruct (0 ?= z) eqn:C; try discriminate.
    + apply Z.compare_eq in C. lia.
    + apply Z.compare_gt_iff in C. lia.
  - destruct g as [sg'|sg'| |sg' m e]; cbn; try discriminate;
      destruct sg'; discriminate.
Qed.

(** What one address does to the table: nothing, or one row through
    [save_token_data] on a response that passed the filters. *)
Lemma run_bot_step_tokens (address : string) (s : state) :
  let s' := fst (run_bot_step address s) in
  tokens s' = tokens s \/
  exists token_data pair o status,
    py_get token_data "pair" (JDict []) = Ok pair /\
    passes_filters (config s) pair = Ok true /\
    extract_observation token_data = Ok o /\
    stores o address (fst (fetch_token_data address s)) status /\
    tokens s' = tokens s ++ [make_row o status].
Proof.
  cbv zeta.
  pose proof (fetch_token_data_frame address s) as F. cbv zeta in F.
  destruct F as (Fc & _ & Ft & _).
  rewrite run_bot_step_run. cbv zeta. rewrite Fc.
  destruct (snd (fetch_token_data address s)) as [td|e]; [|left; exact Ft].
  destruct (py_truthy td); [|left; exact Ft].
  destruct (py_get td "pair" (JDict [])) as [pair|e] eqn:Hp; [|left; exact Ft].
  destruct (passes_filters (config s) pair) as [[|]|e] eqn:Hpass;
    [|left; exact Ft|left; exact Ft].
  destruct (save_token_data_outcome td address (fst (fetch_token_data address s)))
    as [E|(o & status & Ho & Hst & _ & Ht)].
  - left. rewrite E. exact Ft.
  - right. exists td, pair, o, status. rewrite Ht, Ft. auto 10.
Qed.

(** X18. A row stored by the loop of [run_bot] belongs to a pair that
    passed the filters: its liquidity and its market cap are at least the
    configured minima.  With a minimum liquidity above zero, no stored row
    is flagged [is_rugged]. *)
Theorem stored_row_passed_filters (address : string) (s : state) (r : row) :
  tokens (fst (run_bot_step address s)) = tokens s ++ [r] ->
  py_ge (PFloat (row_liquidity r)) (min_liquidity (filters (config s))) = true /\
  py_ge (PFloat (row_market_cap r)) (min_market_cap (filters (config s))) = true /\
  (num_positive (min_liquidity (filters (config s))) = true -> row_is_rugged r = 0).
Proof.
  intros H.
  destruct (run_bot_step_tokens address s)
    as [E|(td & pair & o & status & Hp & Hpass & Ho & _ & Ht)].
  - rewrite E in H. symmetry in H. apply app_one_neq in H. contradiction.
  - rewrite Ht in H. apply app_inv_head in H. injection H as <-.
    apply extract_observation_all in Ho.
    destruct Ho as (_ & _ & _ & Hl & Hm & _).
    rewrite (number_at_pair _ _ _ _ Hp) in Hl.
    rewrite (number_at_pair _ _ _ _ Hp) in Hm.
    rewrite passes_filters_eq, Hl, Hm in Hpass. cbn [rbind] in Hpass.
    injection Hpass as Hpass. apply andb_true_iff in Hpass. destruct Hpass as [G1 G2].
    cbn [make_row row_liquidity row_market_cap row_is_rugged].
    split; [exact G1|]. split; [exact G2|].
    intros Hpos. rewrite py_num_eq_zero.
    rewrite (positive_threshold_excludes_zero _ _ Hpos G1). reflexivity.
Qed.

Lemma run_bot_loop_cons (address : string) (rest : list string) (s : state) :
  run_bot_loop (address :: rest) s =
  match snd (run_bot_step address s) with
  | Ok _ => run_bot_loop rest (fst (run_bot_step address s))
  | Raise e => (fst (run_bot_step address s), Raise e)
  end.
Proof.
  cbn [run_bot_loop]. unfold bind.
  destruct (run_bot_step address s) as [s1 [u|e]]; reflexivity.
Qed.

Lemma run_bot_loop_app (l1 l2 : list string) (s : state) :
  run_bot_loop (l1 ++ l2) s =
  match snd (run_bot_loop l1 s) with
  | Ok _ => run_bot_loop l2 (fst (run_bot_loop l1 s))
  | Raise e => (fst (run_bot_loop l1 s), Raise e)
  end.
Proof.
  revert s. induction l1 as [|a l1 IH]; intros s.
  - reflexivity.
  - change ((a :: l1) ++ l2) with (a :: (l1 ++ l2)).
    rewrite !run_bot_loop_cons.
    destruct (snd (run_bot_step a s)); [apply IH | reflexivity].
Qed.

(** X19. The loop of [run_bot] handles no exception: when the pass of an
    address raises, the loop raises the same exception in the state that
    pass left, and the addresses after it are never fetched. *)
Theorem run_bot_loop_aborts (pre : list string) (address : string)
    (post : list string) (s s1 s2 : state) (e : exn) :
  run_bot_loop pre s = (s1, Ok tt) ->
  run_bot_step address s1 = (s2, Raise e) ->
  run_bot_loop (pre ++ address :: post) s = (s2, Raise e).
Proof.
  intros Hpre Hstep. rewrite run_bot_loop_app, Hpre. cbn [fst snd].
  rewrite run_bot_loop_cons, Hstep. reflexivity.
Qed.

Lemma stores_row_invariant (o : observation) (token_address : string) (s : state)
    (status : json) :
  stores o token_address s status -> row_invariant (make_row o status).
Proof.
  intros (_ & Hg & Hf & _). unfold row_invariant. cbn. auto.
Qed.

(** X20. The loop of [run_bot] only appends to the table: the rows it had
    are kept in place, at most one row is added per address, and every row
    added has the audit status "Good" and the bundled-supply flag False. *)
Theorem run_bot_loop_appends (token_addresses : list string) (s : state) :
  exists new,
    tokens (fst (run_bot_loop token_addresses s)) = tokens s ++ new /\
    (List.length new <= List.length token_addresses)%nat /\
    Forall row_invariant new.
Proof.
  revert s. induction token_addresses as [|a l IH]; intros s.
  - exists []. cbn. rewrite app_nil_r. auto.
  - rewrite run_bot_loop_cons.
    assert (Hstep : exists new1,
               tokens (fst (run_bot_step a s)) = tokens s ++ new1 /\
               (List.length new1 <= 1)%nat /\ Forall row_invariant new1).
    { destruct (run_bot_step_tokens a s)
        as [E|(td & pr & o & status & _ & _ & _ & Hst & Ht)].
      - exists []. rewrite E, app_nil_r. cbn. auto.
      - exists [make_row o status]. split; [exact Ht|]. split; [cbn; lia|].
        constructor; [|constructor]. apply (stores_row_invariant _ _ _ _ Hst). }
    destruct Hstep as (new1 & H1 & L1 & F1).
    destruct (snd (run_bot_step a s)).
    + destruct (IH (fst (run_bot_step a s))) as (new2 & H2 & L2 & F2).
      exists (new1 ++ new2). rewrite H2, H1, app_assoc.
      split; [reflexivity|]. split.
      * rewrite length_app. cbn [List.length]. lia.
      * apply Forall_app. auto.
    + cbn [fst]. exists new1. split; [exact H1|]. split; [cbn [List.length]; lia|exact F1].
Qed.

(** What a pass does to the configuration: nothing, or one
    [add_to_blacklist], which also rewrites the file. *)
Lemma save_token_data_config (token_data : json) (token_address : string) (s : state) :
  let s' := fst (save_token_data token_data token_address s) in
  (config s' = config s /\ config_json s' = config_json s) \/
  (exists d, config s' = blacklist_add (JStr token_address) d (config s) /\
             config_json s' = config s').
Proof.
  cbv zeta. rewrite save_token_data_run.
  destruct (extract_observation token_data) as [o|e]; [|left; auto].
  pose proof (check_rugcheck_status_frame token_address s) as F. cbv zeta in F.
  destruct F as (Fc & Fj & _).
  rewrite decide_and_store_run. cbv zeta.
  destruct (snd (check_rugcheck_status token_address s)) as [status|e]; [|left; auto].
  destruct (obs_bundled o).
  - rewrite add_to_blacklist_run. cbn [fst config].
    rewrite blacklist_add_has_coin. cbn [orb negb andb fst config config_json].
    right. exists (obs_dev_address o). rewrite Fc. auto.
  - destruct (negb _ && py_eq_str status "Good"); [|left; auto].
    destruct (bind_parameters (make_row o status)) as [[]|e] eqn:Hbind; [|left; auto].
    rewrite execute_trade_run. cbv zeta. unfold insert_token. rewrite Hbind.
    cbn [fst config config_json]. left. auto.
Qed.

Lemma run_bot_step_config (address : string) (s : state) :
  let s' := fst (run_bot_step address s) in
  (config s' = config s /\ config_json s' = config_json s) \/
  (exists d, config s' = blacklist_add (JStr address) d (config s) /\
             config_json s' = config s').
Proof.
  cbv zeta.
  pose proof (fetch_token_data_frame address s) as F. cbv zeta in F.
  destruct F as (Fc & Fj & _).
  rewrite run_bot_step_run. cbv zeta.
  destruct (snd (fetch_token_data address s)) as [td|e]; [|left; auto].
  destruct (py_truthy td); [|left; auto].
  destruct (py_get td "pair" (JDict [])) as [pr|e]; [|left; auto].
  destruct (passes_filters _ pr) as [[|]|e]; [|left; auto|left; auto].
  destruct (save_token_data_config td address (fst (fetch_token_data address s)))
    as [[H1 H2]|(d & H1 & H2)].
  - left. rewrite H1, H2. auto.
  - right. exists d. split; [rewrite H1, Fc; reflexivity | exact H2].
Qed.

(** X21. The loop of [run_bot] never takes an address off a blacklist and
    never changes the thresholds, the credentials or the audit URL: the
    lists only grow at their end.  If [config.json] held what memory held
    before the loop, it does after it. *)
Theorem run_bot_loop_config (token_addresses : list string) (s : state) :
  let s' := fst (run_bot_loop token_addresses s) in
  config_grows (config s) (config s') /\
  (forall x y, snd (is_blacklisted x y s) = Ok true ->
               snd (is_blacklisted x y s') = Ok true) /\
  (config_json s = config s -> config_json s' = config s').
Proof.
  cbv zeta.
  assert (G : forall l s0,
             config_grows (config s0) (config (fst (run_bot_loop l s0))) /\
             (config_json s0 = config s0 ->
              config_json (fst (run_bot_loop l s0)) = config (fst (run_bot_loop l s0)))).
  { induction l as [|a l IH]; intros s0.
    - cbn. split; [apply config_grows_refl | auto].
    - rewrite run_bot_loop_cons.
      assert (Hstep : config_grows (config s0) (config (fst (run_bot_step a s0))) /\
                      (config_json s0 = config s0 ->
                       config_json (fst (run_bot_step a s0))
                       = config (fst (run_bot_step a s0)))).
      { destruct (run_bot_step_config a s0) as [[H1 H2]|(d & H1 & H2)].
        - rewrite H1, H2. split; [apply config_grows_refl | auto].
        - rewrite H1 in *. split; [apply blacklist_add_grows | intros _; exact H2]. }
      destruct Hstep as [S1 S2].
      destruct (snd (run_bot_step a s0)).
      + destruct (IH (fst (run_bot_step a s0))) as [I1 I2]. split.
        * apply (config_grows_trans _ _ _ S1 I1).
        * intros H. apply I2, S2, H.
      + cbn [fst]. auto. }
  destruct (G token_addresses s) as [G1 G2].
  split; [exact G1|]. split; [|exact G2].
  intros x y. rewrite !is_blacklisted_run. cbn [snd]. intros H.
  injection H as H. f_equal. apply (config_grows_keeps _ _ x y G1 H).
Qed.

Lemma stores_inserts (token_data : json) (token_address : string) (s : state)
    (o : observation) (status : json) :
  extract_observation token_data = Ok o ->
  stores o token_address s status ->
  let s' := fst (save_token_data token_data token_address s) in
  snd (save_token_data token_data token_address s) = Ok tt /\
  tokens s' = tokens s ++ [make_row o status] /\
  config s' = config s.
Proof.
  intros Ho Hst. cbv zeta. rewrite save_token_data_run, Ho.
  destruct Hst as (Ha & Hg & Hf & Hc & Hd & Hbind). subst status.
  pose proof (check_rugcheck_status_frame token_address s) as F. cbv zeta in F.
  destruct F as (Fc & _ & Ft).
  rewrite decide_and_store_run. cbv zeta. rewrite Ha, Hf, Fc, Hc, Hd.
  cbn [orb negb andb py_eq_str]. rewrite String.eqb_refl, Hbind.
  rewrite execute_trade_run. cbv zeta. unfold insert_token. rewrite Hbind.
  cbn [fst snd tokens config]. rewrite Ft, Fc. auto.
Qed.

(** With a network that answers a request the same way whatever came
    before, the audit and the fetch depend on the configuration alone. *)
Lemma check_rugcheck_status_stateless (token_address : string) (s s2 : state) :
  (forall h q, network h q = network [] q) ->
  config s2 = config s ->
  snd (check_rugcheck_status token_address s2)
  = snd (check_rugcheck_status token_address s).
Proof.
  intros Hn Hc. rewrite !check_rugcheck_status_run. cbv zeta.
  rewrite Hc, (Hn (sent s2)), (Hn (sent s)).
  destruct (status_code _ =? 200); reflexivity.
Qed.

Lemma fetch_token_data_stateless (token_address : string) (s s2 : state) :
  (forall h q, network h q = network [] q) ->
  snd (fetch_token_data token_address s2) = snd (fetch_token_data token_address s).
Proof.
  intros Hn. rewrite !fetch_token_data_run. cbv zeta.
  rewrite (Hn (sent s2)), (Hn (sent s)).
  destruct (status_code _ =? 200); reflexivity.
Qed.

Lemma stores_stateless (o : observation) (token_address : string) (s s2 : state)
    (status : json) :
  (forall h q, network h q = network [] q) ->
  config s2 = config s ->
  stores o token_address s status -> stores o token_address s2 status.
Proof.
  intros Hn Hc (Ha & Hg & Hf & H1 & H2 & Hb). unfold stores.
  rewrite (check_rugcheck_status_stateless _ _ _ Hn Hc), Hc. auto 10.
Qed.

(** A step that stores: what it fetched, and where it stops. *)
Lemma run_bot_step_stored (address : string) (s : state) (r : row) :
  tokens (fst (run_bot_step address s)) = tokens s ++ [r] ->
  exists token_data pr o status,
    snd (fetch_token_data address s) = Ok token_data /\
    py_truthy token_data = true /\
    py_get token_data "pair" (JDict []) = Ok pr /\
    passes_filters (config s) pr = Ok true /\
    extract_observation token_data = Ok o /\
    stores o address (fst (fetch_token_data address s)) status /\
    r = make_row o status /\
    run_bot_step address s
    = save_token_data token_data address (fst (fetch_token_data address s)).
Proof.
  intros H.
  pose proof (fetch_token_data_frame address s) as F. cbv zeta in F.
  destruct F as (Fc & _ & Ft & _).
  rewrite run_bot_step_run in *. cbv zeta in *. rewrite Fc in *.
  assert (N : tokens (fst (fetch_token_data address s)) <> tokens s ++ [r]).
  { rewrite Ft. intros E. symmetry in E. apply app_one_neq in E. exact E. }
  destruct (snd (fetch_token_data address s)) as [td|e]; [|contradiction].
  destruct (py_truthy td) eqn:T; [|contradiction].
  destruct (py_get td "pair" (JDict [])) as [pr|e] eqn:Hp; [|contradiction].
  destruct (passes_filters (config s) pr) as [[|]|e] eqn:Hpass;
    [|contradiction|contradiction].
  destruct (save_token_data_outcome td address (fst (fetch_token_data address s)))
    as [E|(o & status & Ho & Hst & _ & Ht)].
  - rewrite E in H. contradiction.
  - rewrite Ht, Ft in H. apply app_inv_head in H. injection H as <-.
    exists td, pr, o, status. auto 10.
Qed.

(** X22. Nothing keeps a token from being stored twice: with a network
    that answers each request the same way every time, an address whose
    pass stores a row stores the same row again when the loop meets the
    address a second time. *)
Theorem same_address_twice_stores_twice (address : string) (s : state) (r : row) :
  (forall h q, network h q = network [] q) ->
  tokens (fst (run_bot_step address s)) = tokens s ++ [r] ->
  tokens (fst (run_bot_loop [address; address] s)) = tokens s ++ [r; r] /\
  snd (run_bot_loop [address; address] s) = Ok tt.
Proof.
  intros Hn H.
  destruct (run_bot_step_stored address s r H)
    as (td & pr & o & status & Hfetch & T & Hp & Hpass & Ho & Hst & -> & Hrun).
  pose proof (fetch_token_data_frame address s) as F. cbv zeta in F.
  destruct F as (Fc & _ & Ft & _).
  destruct (stores_inserts td address _ o status Ho Hst) as (R1 & T1 & C1).
  cbv zeta in *.
  set (s1 := fst (run_bot_step address s)) in *.
  assert (Hs1 : snd (run_bot_step address s) = Ok tt) by (rewrite Hrun; exact R1).
  assert (Hc1 : config s1 = config s) by (unfold s1; rewrite Hrun, C1; exact Fc).
  (* the second step *)
  pose proof (fetch_token_data_frame address s1) as F2. cbv zeta in F2.
  destruct F2 as (Fc2 & _ & Ft2 & _).
  assert (Hst2 : stores o address (fst (fetch_token_data address s1)) status).
  { apply (stores_stateless o address (fst (fetch_token_data address s)) _ status Hn);
      [congruence | exact Hst]. }
  destruct (stores_inserts td address _ o status Ho Hst2) as (R2 & T2 & _).
  cbv zeta in *.
  assert (Hrun2 : run_bot_step address s1
                  = save_token_data td address (fst (fetch_token_data address s1))).
  { rewrite run_bot_step_run. cbv zeta.
    rewrite (fetch_token_data_stateless address s s1 Hn), Hfetch, T, Hp.
    rewrite Fc2, Hc1, Hpass. reflexivity. }
  rewrite run_bot_loop_cons. fold s1. rewrite Hs1.
  rewrite run_bot_loop_cons. rewrite Hrun2, R2. cbn [run_bot_loop ret fst snd].
  rewrite T2, Ft2. split; [|reflexivity].
  rewrite H, <- app_assoc. reflexivity.
Qed.

(** X24. Only status code 200 counts for the audit: on any other code
    the pass stores nothing and posts no buy order, whatever the body
    says.  Once the fields are extracted it returns normally, having sent
    the audit GET alone and told the dashboard of the failure. *)
Theorem audit_failure_stores_nothing (token_data : json) (token_address : string)
    (s : state) :
  status_code (network (sent s) (audit_request token_address s)) <> 200 ->
  let s' := fst (save_token_data token_data token_address s) in
  tokens s' = tokens s /\
  (forall o, extract_observation token_data = Ok o ->
     snd (save_token_data token_data token_address s) = Ok tt /\
     sent s' = sent s ++ [audit_request token_address s] /\
     st s' = st s ++ [StRugcheckFailed token_address]).
Proof.
  intros H. cbv zeta. rewrite save_token_data_run.
  destruct (extract_observation token_data) as [o|e].
  2:{ split; [reflexivity | intros o Ho; discriminate]. }
  rewrite decide_and_store_run. cbv zeta.
  rewrite check_rugcheck_status_run. cbv zeta. unfold audit_request in *.
  apply Z.eqb_neq in H. rewrite H. cbn [fst snd py_eq_str String.eqb Ascii.eqb Bool.eqb].
  rewrite andb_false_r.
  destruct (obs_bundled o).
  - rewrite add_to_blacklist_run. cbn [fst snd tokens sent st].
    split; [reflexivity | intros o' _; auto].
  - cbn [fst snd tokens sent st]. split; [reflexivity | intros o' _; auto].
Qed.

End Bot.

(** ** The scenarios of the specification, run *)

(** Scenario 1: the sample pair, no holders, audit "Good", empty
    blacklists: the observation is stored and a buy order is posted. *)
Example scenario_inserted_and_bought :
  let s' := fst (save_token_data ascii_float_of_str good_audit (JStr "secret")
                   (sample_token_data []) "So1ana" sample_state) in
  passes_filters ascii_float_of_str sample_config (sample_pair []) = Ok true /\
  List.length (tokens s') = 1%nat /\
  map row_is_rugged (tokens s') = [0] /\
  st s' = [StTradeExecuted "buy" "So1ana"] /\
  config s' = sample_config.
Proof. vm_compute. repeat split; reflexivity. Qed.

(** Scenario 2: a holder with 60% of the supply: blacklisted, not stored. *)
Example scenario_majority_holder :
  let s' := fst (save_token_data ascii_float_of_str good_audit (JStr "secret")
                   (sample_token_data majority_holders) "So1ana" sample_state) in
  tokens s' = [] /\
  blacklisted_coins (config s') = [JStr "So1ana"] /\
  blacklisted_devs (config_json s') = [JStr "So1ana"] /\
  st s' = [].
Proof. vm_compute. repeat split; reflexivity. Qed.

(** Scenario 3: the audit endpoint answers 503: status "Unknown", nothing
    stored. *)
Example scenario_audit_unavailable :
  let run := save_token_data ascii_float_of_str (sample_network 503 None) (JStr "secret")
               (sample_token_data []) "So1ana" sample_state in
  snd (check_rugcheck_status (sample_network 503 None) "So1ana" sample_state)
    = Ok (JStr "Unknown") /\
  tokens (fst run) = [] /\ snd run = Ok tt /\
  st (fst run) = [StRugcheckFailed "So1ana"].
Proof. vm_compute. repeat split; reflexivity. Qed.

(** ** The theorems at the sample data *)

Lemma insert_only_if_clear_and_good_witness :
  let s' := fst (save_token_data ascii_float_of_str good_audit (JStr "secret")
                   (sample_token_data []) "So1ana" sample_state) in
  tokens s' <> tokens sample_state /\
  exists r, tokens s' = tokens sample_state ++ [r] /\
            row_rugcheck_status r = JStr "Good".
Proof.
  assert (H : tokens (fst (save_token_data ascii_float_of_str good_audit (JStr "secret")
                             (sample_token_data []) "So1ana" sample_state))
              <> tokens sample_state) by (vm_compute; discriminate).
  split; [exact H|].
  destruct (insert_only_if_clear_and_good ascii_float_of_str good_audit (JStr "secret")
              (sample_token_data []) "So1ana" sample_state H)
    as (r & status & Ht & _ & _ & _ & Hg & _).
  exists r. split; [exact Ht | exact Hg].
Defined.




Lemma inserted_row_rugged_flag_witness :
  exists r,
    tokens (fst (save_token_data ascii_float_of_str good_audit (JStr "secret")
                   (sample_token_data []) "So1ana" sample_state))
      = tokens sample_state ++ [r] /\
    (row_is_rugged r = 0 <->
       ~ (float_is_zero (row_liquidity r) = true /\ float_is_zero (row_price r) = true)).
Proof.
  eexists. split; [vm_compute; reflexivity|].
  refine (proj2 (proj2 (proj2 (inserted_row_rugged_flag ascii_float_of_str good_audit
            (JStr "secret") (sample_token_data []) "So1ana" sample_state _ _)))).
  vm_compute. reflexivity.
Defined.

Lemma add_to_blacklist_idempotent_witness :
  let s1 := fst (add_to_blacklist (JStr "So1ana") (JStr "dev1") sample_state) in
  let s2 := fst (add_to_blacklist (JStr "So1ana") (JStr "dev1") s1) in
  s2 = s1 /\
  occurrences (JStr "So1ana") (blacklisted_coins (config s2)) = 1%nat /\
  occurrences (JStr "dev1") (blacklisted_devs (config s2)) = 1%nat.
Proof.
  destruct (add_to_blacklist_idempotent (JStr "So1ana") (JStr "dev1") sample_state)
    as (H1 & _ & _ & H2 & H3).
  split; [exact H1|]. split; [apply H2 | apply H3]; vm_compute; lia.
Defined.

Lemma passes_filters_returns_iff_numbers_witness :
  field ["liquidity"; "usd"] (JDict [("dexId", JStr "raydium")]) = Ok None /\
  field ["fdv"] (JDict [("dexId", JStr "raydium")]) = Ok None /\
  passes_filters ascii_float_of_str sample_config (JDict [("dexId", JStr "raydium")])
    = Ok false.
Proof.
  split; [reflexivity|]. split; [reflexivity|].
  apply (proj2 (proj2 (passes_filters_returns_iff_numbers ascii_float_of_str sample_config
                         (JDict [("dexId", JStr "raydium")]))) eq_refl eq_refl).
Defined.

Lemma check_rugcheck_status_label_witness :
  snd (check_rugcheck_status good_audit "So1ana" sample_state) = Ok (JStr "Good") /\
  snd (check_rugcheck_status (sample_network 503 None) "So1ana" sample_state)
    = Ok (JStr "Unknown") /\
  snd (check_rugcheck_status (sample_network 200 (Some (JDict [("score", JInt 1)])))
         "So1ana" sample_state) = Ok (JStr "Unknown").
Proof.
  split; [|split].
  - apply (proj1 (proj2 (check_rugcheck_status_label good_audit "So1ana" sample_state))
             [("status", JStr "Good")] (JStr "Good") eq_refl eq_refl eq_refl).
  - apply (proj1 (proj2 (proj2 (check_rugcheck_status_label (sample_network 503 None)
                                  "So1ana" sample_state)))).
    vm_compute. discriminate.
  - apply (proj2 (proj2 (proj2 (check_rugcheck_status_label
                                  (sample_network 200 (Some (JDict [("score", JInt 1)])))
                                  "So1ana" sample_state)))
             [("score", JInt 1)] eq_refl eq_refl eq_refl).
Defined.


Lemma dev_address_is_base_token_address_witness :
  exists o,
    extract_observation ascii_float_of_str (sample_token_data []) = Ok o /\
    field ["pair"; "baseToken"; "address"] (sample_token_data []) = Ok (Some (JStr "So1ana")) /\
    obs_dev_address o = JStr "So1ana".
Proof.
  eexists. split; [vm_compute; reflexivity|]. split; [reflexivity|].
  refine (proj1 (dev_address_is_base_token_address ascii_float_of_str good_audit
            (JStr "secret") (sample_token_data []) "So1ana" sample_state _
            (Some (JStr "So1ana")) _ eq_refl)).
  vm_compute. reflexivity.
Defined.

(** ** Malformed fields *)

(** C7 fails as stated: a [null] valuation, a liquidity that is not a
    number, and a [liquidity] that is not an object each make
    [passes_filters] raise instead of reading the field as zero. *)
Lemma passes_filters_malformed_raises :
  passes_filters ascii_float_of_str sample_config
    (JDict [("liquidity", JDict [("usd", JInt 50000)]); ("fdv", JNull)])
    = Raise TypeError /\
  passes_filters ascii_float_of_str sample_config
    (JDict [("liquidity", JDict [("usd", JStr "n/a")]); ("fdv", JInt 2000000)])
    = Raise ValueError /\
  passes_filters ascii_float_of_str sample_config
    (JDict [("liquidity", JInt 50000); ("fdv", JInt 2000000)])
    = Raise AttributeError.
Proof. repeat split; reflexivity. Qed.

(** ** The further properties at the sample data *)

Lemma save_token_data_inserts_only_if_witness :
  let s' := fst (save_token_data ascii_float_of_str good_audit (JStr "secret")
                   (sample_token_data []) "So1ana" sample_state) in
  tokens s' <> tokens sample_state /\
  exists o status,
    extract_observation ascii_float_of_str (sample_token_data []) = Ok o /\
    stores good_audit o "So1ana" sample_state status /\
    tokens s' = tokens sample_state ++ [make_row o status].
Proof.
  cbv zeta.
  assert (H : tokens (fst (save_token_data ascii_float_of_str good_audit (JStr "secret")
                             (sample_token_data []) "So1ana" sample_state))
              <> tokens sample_state) by (vm_compute; discriminate).
  split; [exact H|].
  apply (save_token_data_inserts_only_if ascii_float_of_str good_audit (JStr "secret")
           (sample_token_data []) "So1ana" sample_state H).
Defined.

Lemma requests_of_a_pass_witness :
  let s' := fst (save_token_data ascii_float_of_str good_audit (JStr "secret")
                   (sample_token_data []) "So1ana" sample_state) in
  let s'' := fst (save_token_data ascii_float_of_str good_audit (JStr "secret")
                    null_fdv_token_data "So1ana" sample_state) in
  tokens s' <> tokens sample_state /\
  sent s' = sent sample_state ++ [audit_request "So1ana" sample_state;
                                  buy_request (JStr "secret") "So1ana"] /\
  extract_observation ascii_float_of_str null_fdv_token_data = Raise TypeError /\
  sent s'' = sent sample_state.
Proof.
  cbv zeta.
  assert (H : tokens (fst (save_token_data ascii_float_of_str good_audit (JStr "secret")
                             (sample_token_data []) "So1ana" sample_state))
              <> tokens sample_state) by (vm_compute; discriminate).
  split; [exact H|]. split.
  - apply (proj2 (proj2 (requests_of_a_pass ascii_float_of_str good_audit (JStr "secret")
                           (sample_token_data []) "So1ana" sample_state)) H).
  - split; [reflexivity|].
    apply (proj1 (requests_of_a_pass ascii_float_of_str good_audit (JStr "secret")
                    null_fdv_token_data "So1ana" sample_state) TypeError eq_refl).
Defined.

Lemma unreadable_number_stops_pass_witness :
  readable_number ascii_float_of_str ["pair"; "fdv"] null_fdv_token_data = false /\
  exists e, save_token_data ascii_float_of_str good_audit (JStr "secret")
              null_fdv_token_data "So1ana" sample_state = (sample_state, Raise e).
Proof.
  split; [reflexivity|].
  apply (unreadable_number_stops_pass ascii_float_of_str good_audit (JStr "secret")
           null_fdv_token_data "So1ana" sample_state).
  right. right. reflexivity.
Defined.

Lemma config_untouched_unless_bundled_witness :
  is_bundled_supply ascii_float_of_str (sample_token_data []) <> Ok true /\
  config (fst (save_token_data ascii_float_of_str good_audit (JStr "secret")
                 (sample_token_data []) "So1ana" sample_state))
  = config sample_state.
Proof.
  assert (H : is_bundled_supply ascii_float_of_str (sample_token_data []) <> Ok true)
    by (vm_compute; discriminate).
  split; [exact H|].
  apply (proj1 (config_untouched_unless_bundled ascii_float_of_str good_audit
                  (JStr "secret") (sample_token_data []) "So1ana" sample_state H)).
Defined.

Lemma undecodable_audit_stops_pass_witness :
  status_code (sample_network 200 None (sent sample_state)
                 (audit_request "So1ana" sample_state)) = 200 /\
  snd (save_token_data ascii_float_of_str (sample_network 200 None) (JStr "secret")
         (sample_token_data majority_holders) "So1ana" sample_state)
  = Raise JSONDecodeError.
Proof.
  split; [reflexivity|].
  pose proof (fun o Ho =>
    proj1 (undecodable_audit_stops_pass ascii_float_of_str (sample_network 200 None)
             (JStr "secret") (sample_token_data majority_holders) "So1ana" sample_state
             o Ho eq_refl) eq_refl) as P.
  eapply P. vm_compute. reflexivity.
Defined.

Lemma failed_trade_keeps_row_witness :
  let s' := fst (save_token_data ascii_float_of_str (sample_market 500) (JStr "secret")
                   (sample_token_data []) "So1ana" sample_state) in
  status_code (sample_market 500 (sent sample_state ++ [audit_request "So1ana" sample_state])
                 (buy_request (JStr "secret") "So1ana")) <> 200 /\
  (exists o, extract_observation ascii_float_of_str (sample_token_data []) = Ok o /\
             stores (sample_market 500) o "So1ana" sample_state (JStr "Good") /\
             tokens s' = tokens sample_state ++ [make_row o (JStr "Good")]) /\
  st s' = st sample_state ++ [StTradeFailed "buy" "So1ana"].
Proof.
  cbv zeta.
  assert (N : status_code
                (sample_market 500 (sent sample_state ++ [audit_request "So1ana" sample_state])
                   (buy_request (JStr "secret") "So1ana")) <> 200)
    by (vm_compute; discriminate).
  assert (E : exists o,
             extract_observation ascii_float_of_str (sample_token_data []) = Ok o /\
             stores (sample_market 500) o "So1ana" sample_state (JStr "Good")).
  { eexists. split; [vm_compute; reflexivity|]. unfold stores. repeat split; reflexivity. }
  destruct E as (o & Ho & Hst).
  destruct (proj1 (failed_trade_keeps_row ascii_float_of_str (sample_market 500)
                     (JStr "secret") (sample_token_data []) "So1ana" sample_state
                     o (JStr "Good") Ho Hst) N)
    as (_ & Ht & Hd).
  split; [exact N|]. split; [exists o; auto | exact Hd].
Defined.

Lemma refused_parameter_stops_pass_witness :
  snd (check_rugcheck_status good_audit "So1ana" sample_state) = Ok (JStr "Good") /\
  snd (save_token_data ascii_float_of_str good_audit (JStr "secret")
         list_symbol_token_data "So1ana" sample_state) = Raise SqliteBindError.
Proof.
  split; [reflexivity|].
  pose proof (fun o Ho Hf Hd Hb =>
    proj1 (refused_parameter_stops_pass ascii_float_of_str good_audit (JStr "secret")
             list_symbol_token_data "So1ana" sample_state o SqliteBindError
             Ho eq_refl Hf eq_refl Hd Hb)) as P.
  eapply P; [vm_compute; reflexivity | reflexivity | reflexivity | reflexivity].
Defined.

Lemma inserted_row_invariant_witness :
  exists r,
    tokens (fst (save_token_data ascii_float_of_str good_audit (JStr "secret")
                   (sample_token_data []) "So1ana" sample_state))
      = tokens sample_state ++ [r] /\
    row_invariant r.
Proof.
  eexists. split; [vm_compute; reflexivity|].
  refine (inserted_row_invariant ascii_float_of_str good_audit (JStr "secret")
            (sample_token_data []) "So1ana" sample_state _ _).
  vm_compute. reflexivity.
Defined.

Lemma blacklisted_never_stored_witness :
  let s := fst (add_to_blacklist (JStr "So1ana") (JStr "dev1") sample_state) in
  py_in (JStr "So1ana") (blacklisted_coins (config s)) = true /\
  tokens (fst (save_token_data ascii_float_of_str good_audit (JStr "secret")
                 (sample_token_data []) "So1ana" s)) = tokens s.
Proof.
  cbv zeta. split; [reflexivity|].
  apply (proj1 (blacklisted_never_stored ascii_float_of_str good_audit (JStr "secret")
                  (sample_token_data []) "So1ana"
                  (fst (add_to_blacklist (JStr "So1ana") (JStr "dev1") sample_state)))).
  reflexivity.
Defined.

Lemma inserted_row_flags_witness :
  exists r,
    tokens (fst (save_token_data ascii_float_of_str good_audit (JStr "secret")
                   (sample_token_data []) "So1ana" sample_state))
      = tokens sample_state ++ [r] /\
    exists dex_id,
      value_at ["pair"; "dexId"] JNull (sample_token_data []) = Ok dex_id /\
      row_is_cex_listed r = (if py_eq_str dex_id "cex" then 1 else 0).
Proof.
  eexists. split; [vm_compute; reflexivity|].
  destruct (inserted_row_flags ascii_float_of_str good_audit (JStr "secret")
              (sample_token_data []) "So1ana" sample_state _ eq_refl)
    as (dex_id & H1 & H2 & _).
  exists dex_id. split; [exact H1 | exact H2].
Defined.

Lemma add_to_blacklist_then_lookup_witness :
  let s := fst (add_to_blacklist (JStr "Tok1") (JStr "dev1") sample_state) in
  let s' := fst (add_to_blacklist (JStr "Tok2") (JStr "dev2") s) in
  snd (is_blacklisted (JStr "Tok1") (JStr "other") s) = Ok true /\
  snd (is_blacklisted (JStr "Tok1") (JStr "other") s') = Ok true /\
  snd (is_blacklisted (JStr "other") (JStr "dev2") s') = Ok true.
Proof.
  cbv zeta. split; [reflexivity|].
  destruct (add_to_blacklist_then_lookup (JStr "Tok2") (JStr "dev2")
              (fst (add_to_blacklist (JStr "Tok1") (JStr "dev1") sample_state)))
    as (_ & _ & Hd & Hkeep & _).
  split; [apply Hkeep; reflexivity | apply Hd].
Defined.

Lemma is_bundled_supply_iff_witness :
  number_at ascii_float_of_str ["pair"; "totalSupply"] (sample_token_data majority_holders)
    = Ok (float_of_Z 1000) /\
  Exists (above_half ascii_float_of_str (float_of_Z 1000)) majority_holders /\
  is_bundled_supply ascii_float_of_str (sample_token_data majority_holders) = Ok true.
Proof.
  assert (E : Exists (above_half ascii_float_of_str (float_of_Z 1000)) majority_holders).
  { right. left. exists (float_of_Z 600). split; reflexivity. }
  split; [reflexivity|]. split; [exact E|].
  refine (proj2 (proj1 (is_bundled_supply_iff ascii_float_of_str
            (sample_token_data majority_holders) (Some (JList majority_holders))
            majority_holders (float_of_Z 1000) eq_refl eq_refl eq_refl _)) E).
  repeat constructor; eexists; reflexivity.
Defined.

Lemma is_bundled_supply_raises_witness :
  holder_balance ascii_float_of_str (JDict [("address", JStr "h2"); ("balance", JNull)])
    = Raise TypeError /\
  is_bundled_supply ascii_float_of_str (sample_token_data null_balance_holders)
    = Raise TypeError.
Proof.
  split; [reflexivity|].
  refine (proj1 (is_bundled_supply_raises ascii_float_of_str
            (sample_token_data null_balance_holders))
            [JDict [("address", JStr "h1"); ("balance", JInt 100)]]
            (JDict [("address", JStr "h2"); ("balance", JNull)])
            [JDict [("address", JStr "h3"); ("balance", JInt 600)]]
            (float_of_Z 1000) TypeError eq_refl eq_refl _ eq_refl).
  constructor; [|constructor]. exists (float_of_Z 100). split; reflexivity.
Defined.

Lemma nan_supply_never_bundled_witness :
  let token_data :=
    JDict [("pair", JDict [("holders", JList [JDict [("balance", JInt 5)]]);
                           ("totalSupply", JFloat S754_nan)])] in
  number_at ascii_float_of_str ["pair"; "totalSupply"] token_data = Ok S754_nan /\
  is_bundled_supply ascii_float_of_str token_data = Ok false.
Proof.
  cbv zeta. split; [reflexivity|].
  refine (nan_supply_never_bundled ascii_float_of_str
            (JDict [("pair", JDict [("holders", JList [JDict [("balance", JInt 5)]]);
                                    ("totalSupply", JFloat S754_nan)])])
            (Some (JList [JDict [("balance", JInt 5)]]))
            [JDict [("balance", JInt 5)]] eq_refl eq_refl eq_refl _).
  repeat constructor; eexists; reflexivity.
Defined.

Lemma nan_never_passes_witness :
  number_at ascii_float_of_str ["liquidity"; "usd"] nan_liquidity_pair = Ok S754_nan /\
  passes_filters ascii_float_of_str sample_config nan_liquidity_pair = Ok false.
Proof.
  split; [reflexivity|].
  apply (nan_never_passes ascii_float_of_str sample_config nan_liquidity_pair
           S754_nan (float_of_Z 2000000) eq_refl eq_refl).
  left. reflexivity.
Defined.

Lemma fetch_token_data_result_witness :
  snd (fetch_token_data (sample_market 200) "So1ana" sample_state)
    = Ok (sample_token_data []) /\
  snd (fetch_token_data (sample_network 503 None) "So1ana" sample_state) = Ok JNull /\
  snd (fetch_token_data garbled_market "So1ana" sample_state) = Raise JSONDecodeError.
Proof.
  split; [|split].
  - apply (proj1 (proj1 (proj2 (proj2 (proj2 (proj2
             (fetch_token_data_result (sample_market 200) "So1ana" sample_state)))))
             (sample_token_data []) eq_refl eq_refl)).
  - refine (proj1 (proj2 (proj2 (proj2 (proj2 (proj2 (proj2
             (fetch_token_data_result (sample_network 503 None) "So1ana"
                sample_state)))))) _)).
    vm_compute. discriminate.
  - apply (proj1 (proj2 (proj2 (proj2 (proj2 (proj2
             (fetch_token_data_result garbled_market "So1ana" sample_state))))))
             eq_refl eq_refl).
Defined.

Lemma run_bot_step_skips_witness :
  let network_404 :=
    market_network {| status_code := 404; body := None |} good_response 200 in
  let s' := fst (run_bot_step ascii_float_of_str network_404 (JStr "secret")
                   "So1ana" sample_state) in
  status_code (network_404 (sent sample_state)
                 (GET (DEXSCREENER_API_URL ++ "So1ana")%string)) <> 200 /\
  sent s' = sent sample_state ++ [GET (DEXSCREENER_API_URL ++ "So1ana")%string] /\
  tokens s' = tokens sample_state.
Proof.
  cbv zeta.
  assert (H : status_code
                (market_network {| status_code := 404; body := None |} good_response 200
                   (sent sample_state) (GET (DEXSCREENER_API_URL ++ "So1ana")%string))
              <> 200) by (vm_compute; discriminate).
  split; [exact H|].
  destruct (run_bot_step_skips ascii_float_of_str
              (market_network {| status_code := 404; body := None |} good_response 200)
              (JStr "secret") "So1ana" sample_state (or_introl H))
    as (_ & Hs & _ & _ & Ht).
  split; [exact Hs | exact Ht].
Defined.

Lemma stored_row_passed_filters_witness :
  exists r,
    tokens (fst (run_bot_step ascii_float_of_str (sample_market 200) (JStr "secret")
                   "So1ana" sample_state)) = tokens sample_state ++ [r] /\
    num_positive (min_liquidity (filters (config sample_state))) = true /\
    row_is_rugged r = 0.
Proof.
  eexists. split; [vm_compute; reflexivity|]. split; [reflexivity|].
  refine (proj2 (proj2 (stored_row_passed_filters ascii_float_of_str (sample_market 200)
            (JStr "secret") "So1ana" sample_state _ _)) eq_refl).
  vm_compute. reflexivity.
Defined.

Lemma run_bot_loop_aborts_witness :
  exists s2,
    run_bot_step ascii_float_of_str garbled_market (JStr "secret") "So1ana" sample_state
      = (s2, Raise JSONDecodeError) /\
    run_bot_loop ascii_float_of_str garbled_market (JStr "secret")
      ["So1ana"; "Other"] sample_state = (s2, Raise JSONDecodeError).
Proof.
  eexists. split; [vm_compute; reflexivity|].
  refine (run_bot_loop_aborts ascii_float_of_str garbled_market (JStr "secret")
            [] "So1ana" ["Other"] sample_state sample_state _ JSONDecodeError
            eq_refl _).
  vm_compute. reflexivity.
Defined.

Lemma run_bot_loop_config_witness :
  let s' := fst (run_bot_loop ascii_float_of_str (sample_market 200) (JStr "secret")
                   ["So1ana"; "So1ana"] sample_state) in
  config_json sample_state = config sample_state /\
  config_json s' = config s'.
Proof.
  cbv zeta. split; [reflexivity|].
  apply (proj2 (proj2 (run_bot_loop_config ascii_float_of_str (sample_market 200)
                         (JStr "secret") ["So1ana"; "So1ana"] sample_state))).
  reflexivity.
Defined.

Lemma same_address_twice_stores_twice_witness :
  exists r,
    tokens (fst (run_bot_step ascii_float_of_str (sample_market 200) (JStr "secret")
                   "So1ana" sample_state)) = tokens sample_state ++ [r] /\
    tokens (fst (run_bot_loop ascii_float_of_str (sample_market 200) (JStr "secret")
                   ["So1ana"; "So1ana"] sample_state)) = tokens sample_state ++ [r; r].
Proof.
  eexists. split; [vm_compute; reflexivity|].
  refine (proj1 (same_address_twice_stores_twice ascii_float_of_str (sample_market 200)
                   (JStr "secret") "So1ana" sample_state _ _ _)).
  - intros h q. reflexivity.
  - vm_compute. reflexivity.
Defined.

Lemma float_half_normal_witness :
  digits2_pos 8796093022208000 = 53%positive /\
  float_mul float_half (float_of_Z 1000) = float_of_Z 500.
Proof.
  split; [reflexivity|].
  change (float_of_Z 1000) with (S754_finite false 8796093022208000 (-43)).
  change (float_of_Z 500) with (S754_finite false 8796093022208000 (-43 - 1)).
  apply float_half_normal; [reflexivity | lia].
Defined.

Lemma audit_failure_stores_nothing_witness :
  let run := save_token_data ascii_float_of_str (sample_network 503 None) (JStr "secret")
               (sample_token_data []) "So1ana" sample_state in
  status_code (sample_network 503 None (sent sample_state)
                 (audit_request "So1ana" sample_state)) <> 200 /\
  tokens (fst run) = tokens sample_state /\
  st (fst run) = st sample_state ++ [StRugcheckFailed "So1ana"].
Proof.
  cbv zeta.
  assert (H : status_code (sample_network 503 None (sent sample_state)
                             (audit_request "So1ana" sample_state)) <> 200)
    by (vm_compute; discriminate).
  split; [exact H|].
  destruct (audit_failure_stores_nothing ascii_float_of_str (sample_network 503 None)
              (JStr "secret") (sample_token_data []) "So1ana" sample_state H)
    as (Ht & Hrest).
  split; [exact Ht|].
  refine (proj2 (proj2 (Hrest _ _))). vm_compute. reflexivity.
Defined.

(** ** Unreadable fields and the claims of the specification *)




